(** * LUCT Reporting System backend: a shallow embedding of [server.js]

    The routes of [server.js] are embedded as functions from a store
    (the three tables the routes touch), the decoded token of the caller
    and the request to the new store and the HTTP response.  Values are
    JavaScript values, because the routes decide by JavaScript truthiness,
    by [===] and by [||]. *)

From Stdlib Require Import ZArith Ascii String List Permutation.
From stdpp Require Import base option strings list gmap pretty.

Set Warnings "-register-all".
Local Open Scope string_scope.
Local Open Scope Z_scope.

(** ** JavaScript values *)

(** The values a route can meet: what [JSON.parse] builds from a request
    body or from a reply of the store, [undefined] (an absent property)
    and [NaN] (which [parseInt] returns).  Numbers are the integers; no
    route computes with a fraction.  A JavaScript number is a double:
    [JNum z] stands for one when [z] is a safe integer, of magnitude at
    most 2^53 - 1. *)
Inductive jsval : Type :=
| JUndefined
| JNull
| JBool (b : bool)
| JNum (z : Z)
| JNaN
| JStr (s : string)
| JArr (items : list jsval)
| JObj (fields : list (string * jsval)).

(** [Number.isSafeInteger]: the integers that a double holds exactly,
    with their neighbours. *)
Definition safe_integer (z : Z) : Prop := Z.abs z <= 9007199254740991.

(** [ToBoolean]: what [!v], [v || w] and [v ? a : b] test. *)
Definition truthy (v : jsval) : bool :=
  match v with
  | JUndefined | JNull | JNaN => false
  | JBool b => b
  | JNum z => negb (z =? 0)
  | JStr s => negb (String.eqb s "")
  | JArr _ | JObj _ => true
  end.

(** [a || b] *)
Definition js_or (a b : jsval) : jsval := if truthy a then a else b.

(** [a === b].  Arrays and objects are compared by reference; the two
    operands of every [===] of the routes come from different parses, so
    two such values are never the same reference. *)
Definition strict_eq (a b : jsval) : bool :=
  match a, b with
  | JUndefined, JUndefined => true
  | JNull, JNull => true
  | JBool x, JBool y => Bool.eqb x y
  | JNum x, JNum y => x =? y
  | JStr x, JStr y => String.eqb x y
  | _, _ => false
  end.

(** [String(v)], the conversion of template literals.  An integer is
    written in full in decimal, which is what JavaScript writes for a
    safe integer ([safe_integer] below); beyond 2^53 JavaScript writes
    the shortest digits of the double, and from 10^21 on an exponent, so
    that [ToString] stands for [String] on safe integers only. *)
Fixpoint ToString (v : jsval) : string :=
  match v with
  | JUndefined => "undefined"
  | JNull => "null"
  | JBool true => "true"
  | JBool false => "false"
  | JNum z => pretty z
  | JNaN => "NaN"
  | JStr s => s
  | JArr items =>
      (fix join (l : list jsval) : string :=
         match l with
         | [] => ""
         | x :: l' =>
             let sx := match x with
                       | JUndefined | JNull => ""
                       | _ => ToString x
                       end in
             match l' with
             | [] => sx
             | _ :: _ => sx +:+ "," +:+ join l'
             end
         end) items
  | JObj _ => "[object Object]"
  end.

(** Property access [o.k] on a parsed JSON object. *)
Definition get (o : gmap string jsval) (k : string) : jsval :=
  default JUndefined (o !! k).

(** Property access on an object literal. *)
Fixpoint assoc (k : string) (fields : list (string * jsval)) : jsval :=
  match fields with
  | [] => JUndefined
  | (k', v) :: rest => if String.eqb k k' then v else assoc k rest
  end.

Definition field (o : jsval) (k : string) : jsval :=
  match o with
  | JObj fields => assoc k fields
  | _ => JUndefined
  end.

Definition keys (o : jsval) : list string :=
  match o with
  | JObj fields => map fst fields
  | _ => []
  end.

(** *** [parseInt] *)

(** The white space and line terminators of JavaScript.  A string is
    the sequence of the bytes of its UTF-8 form, so those of one byte
    (space, and tab to carriage return) are told by [is_space] and the
    others by their two or three bytes: U+00A0; U+1680, U+2000 to
    U+200A, U+2028, U+2029, U+202F, U+205F, U+3000 and U+FEFF. *)
Definition is_space (c : ascii) : bool :=
  let n := nat_of_ascii c in
  ((n =? 32) || (9 <=? n) && (n <=? 13))%nat.

Definition is_space2 (c1 c2 : ascii) : bool :=
  ((nat_of_ascii c1 =? 194) && (nat_of_ascii c2 =? 160))%nat.

Definition is_space3 (c1 c2 c3 : ascii) : bool :=
  let n1 := nat_of_ascii c1 in
  let n2 := nat_of_ascii c2 in
  let n3 := nat_of_ascii c3 in
  ((n1 =? 225) && (n2 =? 154) && (n3 =? 128)
   || (n1 =? 226) && (n2 =? 128)
      && ((128 <=? n3) && (n3 <=? 138) || (n3 =? 168) || (n3 =? 169)
          || (n3 =? 175))
   || (n1 =? 226) && (n2 =? 129) && (n3 =? 159)
   || (n1 =? 227) && (n2 =? 128) && (n3 =? 128)
   || (n1 =? 239) && (n2 =? 187) && (n3 =? 191))%nat.

(** The first byte of a white space of two bytes, of three bytes. *)
Definition leads_space2 (c : ascii) : bool := (nat_of_ascii c =? 194)%nat.

Definition leads_space3 (c : ascii) : bool :=
  let n := nat_of_ascii c in
  ((n =? 225) || (n =? 226) || (n =? 227) || (n =? 239))%nat.

Fixpoint skip_space (s : string) : string :=
  match s with
  | String c s' =>
      if is_space c then skip_space s'
      else if leads_space2 c then
        match s' with
        | String c2 s2 => if is_space2 c c2 then skip_space s2 else s
        | EmptyString => s
        end
      else if leads_space3 c then
        match s' with
        | String c2 (String c3 s3) =>
            if is_space3 c c2 c3 then skip_space s3 else s
        | _ => s
        end
      else s
  | EmptyString => s
  end.

Definition digit_val (c : ascii) : option Z :=
  let n := Z.of_nat (nat_of_ascii c) in
  if (48 <=? n) && (n <=? 57) then Some (n - 48)
  else if (97 <=? n) && (n <=? 122) then Some (n - 87)
  else if (65 <=? n) && (n <=? 90) then Some (n - 55)
  else None.

(** The longest prefix of digits of the radix; [None] when it is empty. *)
Fixpoint digits (radix : Z) (acc : option Z) (s : string) : option Z :=
  match s with
  | EmptyString => acc
  | String c s' =>
      match digit_val c with
      | Some d =>
          if d <? radix then digits radix (Some (default 0 acc * radix + d)) s'
          else acc
      | None => acc
      end
  end.

(** [parseInt(v)] with no radix: the argument is converted to a string,
    leading white space and a sign are dropped, a [0x] prefix selects
    radix 16, and the digits that follow are read; [NaN] when there is
    none.  The result is exact, where JavaScript rounds to a double: the
    two agree when the digits read denote a safe integer. *)
Definition parseInt (v : jsval) : jsval :=
  let s := skip_space (ToString v) in
  let '(neg, s) := match s with
                   | String "-" s' => (true, s')
                   | String "+" s' => (false, s')
                   | _ => (false, s)
                   end in
  let '(radix, s) := match s with
                     | String "0" (String "x" s') => (16, s')
                     | String "0" (String "X" s') => (16, s')
                     | _ => (10, s)
                     end in
  match digits radix None s with
  | None => JNaN
  | Some n => JNum (if neg then - n else n)
  end.

(** [s.toLowerCase()]; a value that is not a string has no such method
    and the call throws a [TypeError] ([None]).  Letters outside ASCII are
    left alone: none of them maps to a letter of a role name. *)
Definition lower_ascii (c : ascii) : ascii :=
  let n := nat_of_ascii c in
  if ((65 <=? n) && (n <=? 90))%nat then ascii_of_nat (n + 32) else c.

Fixpoint lower (s : string) : string :=
  match s with
  | EmptyString => EmptyString
  | String c s' => String (lower_ascii c) (lower s')
  end.

Definition toLowerCase (v : jsval) : option string :=
  match v with
  | JStr s => Some (lower s)
  | _ => None
  end.

(** [xs.includes(s)] on an array of strings. *)
Definition includes (xs : list string) (s : string) : bool :=
  existsb (String.eqb s) xs.

(** ** The store *)

(** The hosted database as the routes see it through the client: three
    tables of rows.  A row is the JSON object the client returns for it,
    one field per column.  The model keeps the rows and answers the
    queries the routes build; it enforces no constraint of the schema
    (keys, foreign keys, column types) and never fails for a reason
    outside the query, such as the network. *)

Module Users.
Record row := {
  user_id : jsval;
  name : jsval;
  email : jsval;
  password : jsval;
  role : jsval;
  created_at : jsval
}.

Definition to_json (u : row) : jsval :=
  JObj [("user_id", user_id u); ("name", name u); ("email", email u);
        ("password", password u); ("role", role u);
        ("created_at", created_at u)].
End Users.

Module Classes.
Record row := {
  id : jsval;
  class_name : jsval;
  course_name : jsval;
  course_code : jsval;
  lecturer : jsval;
  schedule : jsval;
  venue : jsval;
  capacity : jsval;
  status : jsval;
  created_by : jsval;
  created_at : jsval
}.

Definition columns : list string :=
  ["id"; "class_name"; "course_name"; "course_code"; "lecturer";
   "schedule"; "venue"; "capacity"; "status"; "created_by"; "created_at"].

Definition to_json (c : row) : jsval :=
  JObj [("id", id c); ("class_name", class_name c);
        ("course_name", course_name c); ("course_code", course_code c);
        ("lecturer", lecturer c); ("schedule", schedule c);
        ("venue", venue c); ("capacity", capacity c);
        ("status", status c); ("created_by", created_by c);
        ("created_at", created_at c)].
End Classes.

Module Report.
Record row := {
  report_id : jsval;
  class_id : jsval;
  week : jsval;
  date : jsval;
  topic : jsval;
  learning_outcomes : jsval;
  recommendations : jsval;
  actual_students : jsval;
  submitted_by : jsval;
  created_at : jsval
}.

(** [classes(class_name, course_name, course_code, lecturer)] *)
Record classes_embed := {
  class_name : jsval;
  course_name : jsval;
  course_code : jsval;
  lecturer : jsval
}.

(** [users!report_submitted_by_fkey(name)] *)
Record users_embed := { name : jsval }.

(** A row of the select with the two embedded resources; an embedded
    resource is [null] ([None]) when the row references nothing. *)
Record joined := {
  base : row;
  classes : option classes_embed;
  users : option users_embed
}.
End Report.

Coercion Report.base : Report.joined >-> Report.row.

Record store := {
  tbl_users : list Users.row;
  tbl_classes : list Classes.row;
  tbl_report : list Report.row;
  serial : Z;   (* the next generated key *)
  clock : Z     (* the reading of the clock, for [created_at] *)
}.

(** The error object of a reply. *)
Record pg_error := { code : string; message : string }.

Definition PGRST116 : pg_error :=
  {| code := "PGRST116";
     message := "JSON object requested, multiple (or no) rows returned" |}.

Definition PGRST204 : pg_error :=
  {| code := "PGRST204";
     message := "Could not find a column of the table in the schema cache" |}.

(** [{ data, error }], what awaiting a query yields. *)
Record reply (A : Type) := { data : option A; error : option pg_error }.
Arguments data {A} _.
Arguments error {A} _.

Definition ok {A} (a : A) : reply A := {| data := Some a; error := None |}.
Definition ok_null {A} : reply A := {| data := None; error := None |}.
Definition failed {A} (e : pg_error) : reply A :=
  {| data := None; error := Some e |}.

Module Pg.

(** What reaches a column from a value of a payload: [JSON.stringify]
    writes [NaN] as [null], and drops an [undefined] property, which
    leaves the column [null] in an insert. *)
Definition wire (v : jsval) : jsval :=
  match v with
  | JNaN | JUndefined => JNull
  | _ => v
  end.

(** The filter [column=eq.<value>]: the client writes the value into the
    request with [String(value)] and the store compares the column with
    that text; a [null] column equals nothing.  The text of a column is
    the one [String] gives its JSON value, so a numeral written in
    another way (a leading zero, a sign) is not matched with the number
    it denotes. *)
Definition pg_eq (col : jsval) (arg : string) : bool :=
  match col with
  | JNull | JUndefined => false
  | _ => String.eqb (ToString col) arg
  end.

(** [.eq(column, value)] *)
Definition eq {R} (column : R -> jsval) (value : jsval) (rows : list R)
  : list R :=
  List.filter (fun r => pg_eq (column r) (ToString value)) rows.

(** [.single()]: exactly one row, or an error. *)
Definition single {R} (rows : list R) : reply R :=
  match rows with
  | [r] => ok r
  | _ => failed PGRST116
  end.

(** [.maybeSingle()]: no row gives [null]; more than one is an error. *)
Definition maybeSingle {R} (rows : list R) : reply R :=
  match rows with
  | [] => ok_null
  | [r] => ok r
  | _ => failed PGRST116
  end.

(** The order of a column, [null] being the greatest. *)
Definition pg_ge (a b : jsval) : bool :=
  match a, b with
  | (JNull | JUndefined), _ => true
  | _, (JNull | JUndefined) => false
  | JNum x, JNum y => y <=? x
  | JStr x, JStr y => negb (String.ltb x y)
  | _, _ => true
  end.

Fixpoint insert_desc {R} (column : R -> jsval) (x : R) (l : list R) : list R :=
  match l with
  | [] => [x]
  | y :: l' =>
      if pg_ge (column x) (column y) then x :: l
      else y :: insert_desc column x l'
  end.

(** [.order(column, { ascending: false })] *)
Definition order_desc {R} (column : R -> jsval) (rows : list R) : list R :=
  foldr (insert_desc column) [] rows.

End Pg.

(** The embedded resources of a report row, found through its two
    foreign keys. *)
Definition embed_class (c : Classes.row) : Report.classes_embed :=
  {| Report.class_name := Classes.class_name c;
     Report.course_name := Classes.course_name c;
     Report.course_code := Classes.course_code c;
     Report.lecturer := Classes.lecturer c |}.

Definition embed_user (u : Users.row) : Report.users_embed :=
  {| Report.name := Users.name u |}.

Definition references {R} (column : R -> jsval) (key : jsval) (rows : list R)
  : option R :=
  match key with
  | JNull | JUndefined => None
  | _ => head (Pg.eq column key rows)
  end.

Definition join (st : store) (r : Report.row) : Report.joined :=
  {| Report.base := r;
     Report.classes :=
       embed_class <$> references Classes.id (Report.class_id r) (tbl_classes st);
     Report.users :=
       embed_user <$> references Users.user_id (Report.submitted_by r) (tbl_users st) |}.

(** *** Writes *)

Definition with_users (st : store) (rows : list Users.row) : store :=
  {| tbl_users := rows; tbl_classes := tbl_classes st;
     tbl_report := tbl_report st; serial := serial st; clock := clock st |}.

Definition with_classes (st : store) (rows : list Classes.row) : store :=
  {| tbl_users := tbl_users st; tbl_classes := rows;
     tbl_report := tbl_report st; serial := serial st; clock := clock st |}.

Definition with_report (st : store) (rows : list Report.row) : store :=
  {| tbl_users := tbl_users st; tbl_classes := tbl_classes st;
     tbl_report := rows; serial := serial st; clock := clock st |}.

(** An insert draws the key and the time stamp of the new row. *)
Definition tick (st : store) : store :=
  {| tbl_users := tbl_users st; tbl_classes := tbl_classes st;
     tbl_report := tbl_report st; serial := serial st + 1;
     clock := clock st + 1 |}.

(** [from("users").insert([values]).select()] *)
Definition insert_users (values : list (string * jsval)) (st : store)
  : store * reply (list Users.row) :=
  let u := {| Users.user_id := JNum (serial st);
              Users.name := Pg.wire (assoc "name" values);
              Users.email := Pg.wire (assoc "email" values);
              Users.password := Pg.wire (assoc "password" values);
              Users.role := Pg.wire (assoc "role" values);
              Users.created_at := JNum (clock st) |} in
  (tick (with_users st (tbl_users st ++ [u])), ok [u]).

(** [from("classes").insert([values]).select()] *)
Definition insert_classes (values : list (string * jsval)) (st : store)
  : store * reply (list Classes.row) :=
  let c := {| Classes.id := JNum (serial st);
              Classes.class_name := Pg.wire (assoc "class_name" values);
              Classes.course_name := Pg.wire (assoc "course_name" values);
              Classes.course_code := Pg.wire (assoc "course_code" values);
              Classes.lecturer := Pg.wire (assoc "lecturer" values);
              Classes.schedule := Pg.wire (assoc "schedule" values);
              Classes.venue := Pg.wire (assoc "venue" values);
              Classes.capacity := Pg.wire (assoc "capacity" values);
              Classes.status := Pg.wire (assoc "status" values);
              Classes.created_by := Pg.wire (assoc "created_by" values);
              Classes.created_at := JNum (clock st) |} in
  (tick (with_classes st (tbl_classes st ++ [c])), ok [c]).

(** The value of a column after a patch: the patch's when it has the
    column, the old one otherwise. *)
Definition patch_column (values : gmap string jsval) (k : string) (old : jsval)
  : jsval :=
  match values !! k with
  | Some JUndefined | None => old
  | Some v => Pg.wire v
  end.

Definition patched (values : gmap string jsval) (c : Classes.row) : Classes.row :=
  {| Classes.id := patch_column values "id" (Classes.id c);
     Classes.class_name := patch_column values "class_name" (Classes.class_name c);
     Classes.course_name := patch_column values "course_name" (Classes.course_name c);
     Classes.course_code := patch_column values "course_code" (Classes.course_code c);
     Classes.lecturer := patch_column values "lecturer" (Classes.lecturer c);
     Classes.schedule := patch_column values "schedule" (Classes.schedule c);
     Classes.venue := patch_column values "venue" (Classes.venue c);
     Classes.capacity := patch_column values "capacity" (Classes.capacity c);
     Classes.status := patch_column values "status" (Classes.status c);
     Classes.created_by := patch_column values "created_by" (Classes.created_by c);
     Classes.created_at := patch_column values "created_at" (Classes.created_at c) |}.

(** [from("classes").update(values).eq("id", classId).select()]: every
    property of [values] is written to its column in the rows the filter
    keeps, and the rows written are returned; a property that names no
    column is refused. *)
Definition update_classes (values : gmap string jsval) (classId : jsval)
    (st : store) : store * reply (list Classes.row) :=
  if decide (map_Forall (fun k _ => k ∈ Classes.columns) values) then
    let hit c := Pg.pg_eq (Classes.id c) (ToString classId) in
    (with_classes st
       (map (fun c => if hit c then patched values c else c) (tbl_classes st)),
     ok (map (patched values) (Pg.eq Classes.id classId (tbl_classes st))))
  else (st, failed PGRST204).

(** [from("classes").delete().eq("id", classId)] *)
Definition delete_classes (classId : jsval) (st : store)
  : store * reply (list Classes.row) :=
  (with_classes st
     (List.filter (fun c => negb (Pg.pg_eq (Classes.id c) (ToString classId)))
        (tbl_classes st)),
   ok_null).

(** [from("report").insert([values]).select(`*, classes(...), users!...(name)`)] *)
Definition insert_report (values : list (string * jsval)) (st : store)
  : store * reply (list Report.joined) :=
  let r := {| Report.report_id := JNum (serial st);
              Report.class_id := Pg.wire (assoc "class_id" values);
              Report.week := Pg.wire (assoc "week" values);
              Report.date := Pg.wire (assoc "date" values);
              Report.topic := Pg.wire (assoc "topic" values);
              Report.learning_outcomes := Pg.wire (assoc "learning_outcomes" values);
              Report.recommendations := Pg.wire (assoc "recommendations" values);
              Report.actual_students := Pg.wire (assoc "actual_students" values);
              Report.submitted_by := Pg.wire (assoc "submitted_by" values);
              Report.created_at := JNum (clock st) |} in
  (tick (with_report st (tbl_report st ++ [r])), ok [join st r]).

(** [from("report").select(`*, classes(...), users!...(name)`)] *)
Definition select_report (st : store) : list Report.joined :=
  map (join st) (tbl_report st).

(** ** The routes *)

(** [req.user], the payload of the verified token. *)
Module Req.
Record user := { id : jsval; role : jsval; name : jsval; email : jsval }.
End Req.

Record http_response := { status : Z; body : jsval }.

(** [res.status(code).json(payload)] *)
Definition json (code : Z) (payload : jsval) : http_response :=
  {| status := code; body := payload |}.

Definition json_error (code : Z) (msg : string) : http_response :=
  json code (JObj [("error", JStr msg)]).

(** [data[0]] *)
Definition first {A} (to_json : A -> jsval) (rows : list A) : jsval :=
  match rows with
  | r :: _ => to_json r
  | [] => JUndefined
  end.

(** [o?.k] *)
Definition optional {A} (o : option A) (k : A -> jsval) : jsval :=
  match o with
  | Some a => k a
  | None => JUndefined
  end.

(** *** Registration and login *)

Section Auth.

(** The primitives of the libraries: [bcrypt.hash(s, 10)] with the salt
    it draws, [bcrypt.compare(s, hash)] and [jwt.sign(payload, secret,
    { expiresIn: "24h" })]. *)
Variable bcrypt_hash : string -> string.
Variable bcrypt_compare : string -> string -> bool.
Variable jwt_sign : jsval -> string.

(** [bcrypt.hash] rejects data that is not a string. *)
Definition hash (data : jsval) : option string :=
  match data with
  | JStr s => Some (bcrypt_hash s)
  | _ => None
  end.

(** [bcrypt.compare] rejects arguments that are not strings. *)
Definition compare (data encrypted : jsval) : option bool :=
  match data, encrypted with
  | JStr s, JStr h => Some (bcrypt_compare s h)
  | _, _ => None
  end.

Definition allowedRoles : list string := ["student"; "lecturer"; "prl"; "pl"].

(** [app.post("/register", ...)] *)
Definition post_register (st : store) (body : gmap string jsval)
  : store * http_response :=
  let name := get body "name" in
  let email := get body "email" in
  let password := get body "password" in
  let role := get body "role" in
  if negb (truthy name) || negb (truthy email) || negb (truthy password)
     || negb (truthy role)
  then (st, json_error 400 "All fields are required")
  else
    match toLowerCase role with
    | None => (st, json_error 500 "Registration failed")
    | Some lowered =>
        if negb (includes allowedRoles lowered)
        then (st, json_error 400 "Invalid role selected")
        else
          let existingUser :=
            data (Pg.maybeSingle (Pg.eq Users.email email (tbl_users st))) in
          match existingUser with
          | Some _ => (st, json_error 400 "User already exists")
          | None =>
              match hash password with
              | None => (st, json_error 500 "Registration failed")
              | Some hashedPassword =>
                  let '(st', r) :=
                    insert_users
                      [("name", name); ("email", email);
                       ("password", JStr hashedPassword);
                       ("role", JStr lowered)] st in
                  match error r, data r with
                  | Some _, _ | None, None =>
                      (st', json_error 500 "Registration failed")
                  | None, Some rows =>
                      (st', json 201
                              (JObj [("success", JBool true);
                                     ("message", JStr "User registered");
                                     ("user", first Users.to_json rows)]))
                  end
              end
          end
    end.

(** [app.post("/login", ...)] *)
Definition post_login (st : store) (body : gmap string jsval)
  : store * http_response :=
  let email := get body "email" in
  let password := get body "password" in
  if negb (truthy email) || negb (truthy password)
  then (st, json_error 400 "Email and password required")
  else
    let r := Pg.maybeSingle (Pg.eq Users.email email (tbl_users st)) in
    match error r, data r with
    | Some _, _ | None, None => (st, json_error 401 "Invalid credentials")
    | None, Some data =>
        match compare password (Users.password data) with
        | None => (st, json_error 500 "Login failed")
        | Some false => (st, json_error 401 "Invalid credentials")
        | Some true =>
            let token :=
              jwt_sign (JObj [("id", Users.user_id data);
                              ("role", Users.role data);
                              ("name", Users.name data);
                              ("email", Users.email data)]) in
            (st, json 200
                   (JObj [("success", JBool true);
                          ("message", JStr "Login successful");
                          ("token", JStr token);
                          ("user", JObj [("id", Users.user_id data);
                                         ("name", Users.name data);
                                         ("email", Users.email data);
                                         ("role", Users.role data)])]))
        end
    end.

End Auth.

(** *** Classes *)

(** [app.post("/classes", authenticateToken, ...)] *)
Definition post_classes (st : store) (user : Req.user)
    (body : gmap string jsval) : store * http_response :=
  let class_name := get body "class_name" in
  let course_name := get body "course_name" in
  let course_code := get body "course_code" in
  let lecturer := get body "lecturer" in
  let schedule := get body "schedule" in
  let venue := get body "venue" in
  let capacity := get body "capacity" in
  let status := get body "status" in
  if negb (truthy class_name) || negb (truthy course_name)
     || negb (truthy course_code) || negb (truthy lecturer)
  then (st, json_error 400 "Required fields missing")
  else if negb (existsb (strict_eq (Req.role user))
                  [JStr "lecturer"; JStr "pl"; JStr "prl"])
  then (st, json_error 403 "Not authorized to create class")
  else
    let '(st', r) :=
      insert_classes
        [("class_name", class_name); ("course_name", course_name);
         ("course_code", course_code); ("lecturer", lecturer);
         ("schedule", js_or schedule JNull); ("venue", js_or venue JNull);
         ("capacity", if truthy capacity then parseInt capacity else JNull);
         ("status", js_or status (JStr "active"));
         ("created_by", Req.name user)] st in
    match error r, data r with
    | Some _, _ | None, None => (st', json_error 500 "Failed to add class")
    | None, Some rows =>
        (st', json 201 (JObj [("success", JBool true);
                              ("class", first Classes.to_json rows)]))
    end.

(** [if (updates.capacity) updates.capacity = parseInt(updates.capacity)] *)
Definition coerce_capacity (updates : gmap string jsval) : gmap string jsval :=
  if truthy (get updates "capacity")
  then <["capacity" := parseInt (get updates "capacity")]> updates
  else updates.

(** [app.put("/classes/:id", authenticateToken, ...)] *)
Definition put_classes_id (st : store) (user : Req.user) (classId : string)
    (updates : gmap string jsval) : store * http_response :=
  let fetched := Pg.single (Pg.eq Classes.id (JStr classId) (tbl_classes st)) in
  match error fetched, data fetched with
  | Some _, _ | None, None => (st, json_error 404 "Class not found")
  | None, Some existingClass =>
      if negb (strict_eq (Req.role user) (JStr "pl"))
         && negb (strict_eq (Classes.created_by existingClass) (Req.name user))
      then (st, json_error 403 "Not authorized to edit this class")
      else
        let updates := coerce_capacity updates in
        let '(st', r) := update_classes updates (JStr classId) st in
        match error r, data r with
        | Some _, _ | None, None =>
            (st', json_error 500 "Failed to update class")
        | None, Some rows =>
            (st', json 200 (JObj [("success", JBool true);
                                  ("class", first Classes.to_json rows)]))
        end
  end.

(** [app.delete("/classes/:id", authenticateToken, ...)] *)
Definition delete_classes_id (st : store) (user : Req.user) (classId : string)
  : store * http_response :=
  let fetched := Pg.single (Pg.eq Classes.id (JStr classId) (tbl_classes st)) in
  match error fetched, data fetched with
  | Some _, _ | None, None => (st, json_error 404 "Class not found")
  | None, Some existingClass =>
      if negb (strict_eq (Req.role user) (JStr "pl"))
         && negb (strict_eq (Classes.created_by existingClass) (Req.name user))
      then (st, json_error 403 "Not authorized to delete this class")
      else
        let '(st', r) := delete_classes (JStr classId) st in
        match error r with
        | Some _ => (st', json_error 500 "Failed to delete class")
        | None =>
            (st', json 200 (JObj [("success", JBool true);
                                  ("message", JStr "Class deleted successfully")]))
        end
  end.

(** *** Reports *)

(** The function mapped over the rows in [GET /reports]. *)
Definition transformedData (report : Report.joined) : jsval :=
  JObj
    [("id", Report.report_id report);
     ("faculty_name", JStr "Faculty of ICT");
     ("class_name",
      js_or (optional (Report.classes report) Report.class_name)
        (JStr "Unknown Class"));
     ("class_id", Report.class_id report);
     ("week_of_reporting", JStr ("Week " +:+ ToString (Report.week report)));
     ("date_of_lecture", Report.date report);
     ("course_name",
      js_or (optional (Report.classes report) Report.course_name)
        (JStr "Unknown Course"));
     ("course_code",
      js_or (optional (Report.classes report) Report.course_code) (JStr "N/A"));
     ("lecturer_name",
      js_or
        (js_or (optional (Report.classes report) Report.lecturer)
           (optional (Report.users report) Report.name))
        (JStr "Unknown Lecturer"));
     ("actual_students_present", Report.actual_students report);
     ("total_registered_students", JNum 50);
     ("venue", JStr "Room 101");
     ("scheduled_time", JStr "10:00");
     ("topic_taught", Report.topic report);
     ("learning_outcomes", Report.learning_outcomes report);
     ("recommendations", Report.recommendations report);
     ("status", JStr "submitted");
     ("feedback", JStr "");
     ("created_by", Report.submitted_by report);
     ("created_at", Report.created_at report)].

(** [app.get("/reports", authenticateToken, ...)] *)
Definition get_reports (st : store) (user : Req.user) : store * http_response :=
  let query := Pg.order_desc (R := Report.joined) Report.created_at (select_report st) in
  let query :=
    if strict_eq (Req.role user) (JStr "lecturer")
    then Pg.eq (R := Report.joined) Report.submitted_by (Req.id user) query
    else query in
  let r := ok query in
  match error r, data r with
  | Some e, _ =>
      (st, json_error 500 ("Failed to fetch reports: " +:+ message e))
  | None, None =>
      (st, json_error 500
             ("Failed to fetch reports: "
              +:+ "Cannot read properties of null (reading 'map')"))
  | None, Some data => (st, json 200 (JArr (map transformedData data)))
  end.

(** [transformedReport] of [POST /reports], built from [data[0]]. *)
Definition transformedReport_post (data0 : Report.joined) : jsval :=
  JObj
    [("id", Report.report_id data0);
     ("faculty_name", JStr "Faculty of ICT");
     ("class_name",
      js_or (optional (Report.classes data0) Report.class_name)
        (JStr "Unknown Class"));
     ("class_id", Report.class_id data0);
     ("week_of_reporting", JStr ("Week " +:+ ToString (Report.week data0)));
     ("date_of_lecture", Report.date data0);
     ("course_name",
      js_or (optional (Report.classes data0) Report.course_name)
        (JStr "Unknown Course"));
     ("course_code",
      js_or (optional (Report.classes data0) Report.course_code) (JStr "N/A"));
     ("lecturer_name",
      js_or
        (js_or (optional (Report.classes data0) Report.lecturer)
           (optional (Report.users data0) Report.name))
        (JStr "Unknown Lecturer"));
     ("actual_students_present", Report.actual_students data0);
     ("total_registered_students", JNum 50);
     ("venue", JStr "Room 101");
     ("scheduled_time", JStr "10:00");
     ("topic_taught", Report.topic data0);
     ("learning_outcomes", Report.learning_outcomes data0);
     ("recommendations", Report.recommendations data0);
     ("status", JStr "submitted");
     ("feedback", JStr "");
     ("created_by", Report.submitted_by data0);
     ("created_at", Report.created_at data0)].

(** [app.post("/reports", authenticateToken, ...)] *)
Definition post_reports (st : store) (user : Req.user)
    (body : gmap string jsval) : store * http_response :=
  let class_id := get body "class_id" in
  let week := get body "week" in
  let date := get body "date" in
  let topic := get body "topic" in
  let learning_outcomes := get body "learning_outcomes" in
  let recommendations := get body "recommendations" in
  let actual_students := get body "actual_students" in
  if negb (truthy class_id) || negb (truthy week) || negb (truthy date)
     || negb (truthy topic) || negb (truthy actual_students)
  then
    (st, json_error 400
           "Class, week, date, topic, and actual students are required")
  else
    let '(st', r) :=
      insert_report
        [("class_id", parseInt class_id);
         ("week", parseInt week);
         ("date", date);
         ("topic", topic);
         ("learning_outcomes", js_or learning_outcomes JNull);
         ("recommendations", js_or recommendations JNull);
         ("actual_students", parseInt actual_students);
         ("submitted_by", Req.id user)] st in
    match error r, data r with
    | Some e, _ =>
        (st', json_error 500 ("Failed to create report: " +:+ message e))
    | None, None | None, Some [] =>
        (st', json_error 500
                ("Failed to create report: " +:+ "No data returned after insert"))
    | None, Some (data0 :: _) =>
        (st', json 201 (JObj [("success", JBool true);
                              ("report", transformedReport_post data0)]))
    end.

(** [transformedReport] of [PUT /reports/:id]. *)
Definition transformedReport_put (data : Report.joined) (feedback : jsval) : jsval :=
  JObj
    [("id", Report.report_id data);
     ("faculty_name", JStr "Faculty of ICT");
     ("class_name",
      js_or (optional (Report.classes data) Report.class_name)
        (JStr "Unknown Class"));
     ("class_id", Report.class_id data);
     ("week_of_reporting", JStr ("Week " +:+ ToString (Report.week data)));
     ("date_of_lecture", Report.date data);
     ("course_name",
      js_or (optional (Report.classes data) Report.course_name)
        (JStr "Unknown Course"));
     ("course_code",
      js_or (optional (Report.classes data) Report.course_code) (JStr "N/A"));
     ("lecturer_name",
      js_or
        (js_or (optional (Report.classes data) Report.lecturer)
           (optional (Report.users data) Report.name))
        (JStr "Unknown Lecturer"));
     ("actual_students_present", Report.actual_students data);
     ("total_registered_students", JNum 50);
     ("venue", JStr "Room 101");
     ("scheduled_time", JStr "10:00");
     ("topic_taught", Report.topic data);
     ("learning_outcomes", Report.learning_outcomes data);
     ("recommendations", Report.recommendations data);
     ("status", JStr "submitted");
     ("feedback", js_or feedback (JStr ""));
     ("created_by", Report.submitted_by data);
     ("created_at", Report.created_at data)].

(** [app.put("/reports/:id", authenticateToken, ...)] *)
Definition put_reports_id (st : store) (user : Req.user) (reportId : string)
    (body : gmap string jsval) : store * http_response :=
  let feedback := get body "feedback" in
  if negb (strict_eq (Req.role user) (JStr "prl"))
  then (st, json_error 403 "Not authorized to update reports")
  else
    let r := Pg.single
        (Pg.eq (R := Report.joined) Report.report_id (JStr reportId)
           (select_report st)) in
    match error r, data r with
    | Some _, _ => (st, json_error 500 "Failed to update report")
    | None, None => (st, json_error 404 "Report not found")
    | None, Some data =>
        (st, json 200 (JObj [("success", JBool true);
                             ("report", transformedReport_put data feedback)]))
    end.

(** [transformedReport] of [GET /reports/:id]. *)
Definition transformedReport_get (data : Report.joined) : jsval :=
  JObj
    [("id", Report.report_id data);
     ("faculty_name", JStr "Faculty of ICT");
     ("class_name",
      js_or (optional (Report.classes data) Report.class_name)
        (JStr "Unknown Class"));
     ("class_id", Report.class_id data);
     ("week_of_reporting", JStr ("Week " +:+ ToString (Report.week data)));
     ("date_of_lecture", Report.date data);
     ("course_name",
      js_or (optional (Report.classes data) Report.course_name)
        (JStr "Unknown Course"));
     ("course_code",
      js_or (optional (Report.classes data) Report.course_code) (JStr "N/A"));
     ("lecturer_name",
      js_or
        (js_or (optional (Report.classes data) Report.lecturer)
           (optional (Report.users data) Report.name))
        (JStr "Unknown Lecturer"));
     ("actual_students_present", Report.actual_students data);
     ("total_registered_students", JNum 50);
     ("venue", JStr "Room 101");
     ("scheduled_time", JStr "10:00");
     ("topic_taught", Report.topic data);
     ("learning_outcomes", Report.learning_outcomes data);
     ("recommendations", Report.recommendations data);
     ("status", JStr "submitted");
     ("feedback", JStr "");
     ("created_by", Report.submitted_by data);
     ("created_at", Report.created_at data)].

(** [app.get("/reports/:id", authenticateToken, ...)] *)
Definition get_reports_id (st : store) (user : Req.user) (reportId : string)
  : store * http_response :=
  let r := Pg.single
        (Pg.eq (R := Report.joined) Report.report_id (JStr reportId)
           (select_report st)) in
  match error r, data r with
  | Some _, _ | None, None => (st, json_error 500 "Failed to fetch report")
  | None, Some data =>
      if strict_eq (Req.role user) (JStr "lecturer")
         && negb (strict_eq (Report.submitted_by data) (Req.id user))
      then (st, json_error 403 "Not authorized to view this report")
      else (st, json 200 (transformedReport_get data))
  end.

(** ** Sample data *)

(** A small store: two lecturers, a principal lecturer and a programme
    leader; one class; three reports, the last of a class that is gone
    and of a submitter that is gone. *)
Definition user_A : Users.row :=
  {| Users.user_id := JNum 1; Users.name := JStr "A";
     Users.email := JStr "a@x.com"; Users.password := JStr "hash(p)";
     Users.role := JStr "lecturer"; Users.created_at := JNum 1 |}.

Definition user_B : Users.row :=
  {| Users.user_id := JNum 2; Users.name := JStr "B";
     Users.email := JStr "b@x.com"; Users.password := JStr "hash(q)";
     Users.role := JStr "lecturer"; Users.created_at := JNum 2 |}.

Definition class_CS101 : Classes.row :=
  {| Classes.id := JNum 10; Classes.class_name := JStr "CS101";
     Classes.course_name := JStr "Programming"; Classes.course_code := JStr "CS";
     Classes.lecturer := JStr "A"; Classes.schedule := JNull;
     Classes.venue := JNull; Classes.capacity := JNum 40;
     Classes.status := JStr "active"; Classes.created_by := JStr "A";
     Classes.created_at := JNum 3 |}.

Definition report_100 : Report.row :=
  {| Report.report_id := JNum 100; Report.class_id := JNum 10;
     Report.week := JNum 1; Report.date := JStr "2024-02-05";
     Report.topic := JStr "Loops"; Report.learning_outcomes := JNull;
     Report.recommendations := JNull; Report.actual_students := JNum 35;
     Report.submitted_by := JNum 1; Report.created_at := JNum 4 |}.

Definition report_101 : Report.row :=
  {| Report.report_id := JNum 101; Report.class_id := JNum 10;
     Report.week := JNum 2; Report.date := JStr "2024-02-12";
     Report.topic := JStr "Arrays"; Report.learning_outcomes := JStr "indexing";
     Report.recommendations := JNull; Report.actual_students := JNum 30;
     Report.submitted_by := JNum 2; Report.created_at := JNum 5 |}.

Definition report_102 : Report.row :=
  {| Report.report_id := JNum 102; Report.class_id := JNull;
     Report.week := JNum 3; Report.date := JStr "2024-02-19";
     Report.topic := JStr "Records"; Report.learning_outcomes := JNull;
     Report.recommendations := JNull; Report.actual_students := JNum 28;
     Report.submitted_by := JNull; Report.created_at := JNum 6 |}.

Definition sample : store :=
  {| tbl_users := [user_A; user_B];
     tbl_classes := [class_CS101];
     tbl_report := [report_100; report_101; report_102];
     serial := 200; clock := 7 |}.

Definition lecturer_A : Req.user :=
  {| Req.id := JNum 1; Req.role := JStr "lecturer"; Req.name := JStr "A";
     Req.email := JStr "a@x.com" |}.

Definition lecturer_B : Req.user :=
  {| Req.id := JNum 2; Req.role := JStr "lecturer"; Req.name := JStr "B";
     Req.email := JStr "b@x.com" |}.

Definition prl_P : Req.user :=
  {| Req.id := JNum 3; Req.role := JStr "prl"; Req.name := JStr "P";
     Req.email := JStr "p@x.com" |}.

Definition pl_L : Req.user :=
  {| Req.id := JNum 4; Req.role := JStr "pl"; Req.name := JStr "L";
     Req.email := JStr "l@x.com" |}.

(** Two request bodies for [PUT /classes/:id]. *)
Definition take_over : gmap string jsval :=
  <[ "capacity" := JStr "30" ]> {[ "created_by" := JStr "B" ]}.

Definition resize : gmap string jsval := {[ "capacity" := JStr "30" ]}.

(** Stand-ins for the primitives of the libraries, to run the routes. *)
Definition toy_hash (s : string) : string := "hash(" +:+ s +:+ ")".
Definition toy_compare (s h : string) : bool := String.eqb (toy_hash s) h.
Definition toy_sign (payload : jsval) : string :=
  "token:" +:+ ToString (field payload "id").



(** The four fields that no stored value feeds. *)
Definition placeholders (o : jsval) : Prop :=
  field o "total_registered_students" = JNum 50
  /\ field o "venue" = JStr "Room 101"
  /\ field o "scheduled_time" = JStr "10:00"
  /\ field o "faculty_name" = JStr "Faculty of ICT".


(** The message of [POST /reports] for a missing field. *)
Definition required_message : string :=
  "Class, week, date, topic, and actual students are required".

(** No two users share an email: each filter on the email keeps one row
    at most. *)
Definition emails_unique (rows : list Users.row) : Prop :=
  forall e : string,
    (length (List.filter (fun u => Pg.pg_eq (Users.email u) e) rows) <= 1)%nat.

(** The checks of [POST /register] that precede the lookup of the email:
    the four fields are truthy and the role is a string that names, in
    any case, one of the four roles. *)
Definition passes_checks (req : gmap string jsval) : bool :=
  truthy (get req "name") && truthy (get req "email")
  && truthy (get req "password") && truthy (get req "role")
  && match toLowerCase (get req "role") with
     | Some lowered => includes ["student"; "lecturer"; "prl"; "pl"] lowered
     | None => false
     end.

(** ** The routes outside the reports and the class writes *)

(** [s.split(" ")] *)
Fixpoint split_space (s : string) : list string :=
  match s with
  | EmptyString => [EmptyString]
  | String c s' =>
      if Ascii.eqb c " " then EmptyString :: split_space s'
      else match split_space s' with
           | w :: ws => String c w :: ws
           | [] => [String c EmptyString]
           end
  end.

Fixpoint has_space (s : string) : bool :=
  match s with
  | EmptyString => false
  | String c s' => Ascii.eqb c " " || has_space s'
  end.

Section Gate.

(** [jwt.verify(token, secret, callback)]: the payload of a token that
    verifies, [None] when the callback gets an error. *)
Variable jwt_verify : string -> option Req.user.

(** [authenticateToken]: the answer that ends the request, or the user
    that [next()] finds in [req.user].  The argument is
    [req.headers["authorization"]]. *)
Definition authenticateToken (authorization : option string)
  : http_response + Req.user :=
  let token :=
    match authorization with
    | None => JUndefined
    | Some authHeader =>
        if truthy (JStr authHeader)
        then match split_space authHeader !! 1%nat with
             | Some t => JStr t
             | None => JUndefined
             end
        else JStr authHeader
    end in
  if negb (truthy token)
  then inl (json_error 401 "No token provided")
  else
    match token with
    | JStr t =>
        match jwt_verify t with
        | None => inl (json_error 403 "Invalid or expired token")
        | Some user => inr user
        end
    | _ => inl (json_error 401 "No token provided")
    end.

(** A route registered with [authenticateToken] before its handler. *)
Definition guarded (authorization : option string) (st : store)
    (handler : Req.user -> store * http_response) : store * http_response :=
  match authenticateToken authorization with
  | inl answer => (st, answer)
  | inr user => handler user
  end.

End Gate.

(** The columns [GET /profile] selects. *)
Definition profile_json (u : Users.row) : jsval :=
  JObj [("user_id", Users.user_id u); ("name", Users.name u);
        ("email", Users.email u); ("role", Users.role u);
        ("created_at", Users.created_at u)].

(** [app.get("/profile", authenticateToken, ...)] *)
Definition get_profile (st : store) (user : Req.user) : store * http_response :=
  let r := Pg.single (Pg.eq Users.user_id (Req.id user) (tbl_users st)) in
  match error r, data r with
  | Some _, _ => (st, json_error 500 "Profile retrieval failed")
  | None, None => (st, json 200 JNull)
  | None, Some data => (st, json 200 (profile_json data))
  end.

(** The columns [GET /lecturers] selects. *)
Definition lecturer_json (u : Users.row) : jsval :=
  JObj [("user_id", Users.user_id u); ("name", Users.name u);
        ("email", Users.email u); ("role", Users.role u)].

(** [app.get("/lecturers", ...)] *)
Definition get_lecturers (st : store) : store * http_response :=
  let r := ok (Pg.eq Users.role (JStr "lecturer") (tbl_users st)) in
  match error r, data r with
  | Some _, _ => (st, json_error 500 "Failed to fetch lecturers")
  | None, None => (st, json 200 JNull)
  | None, Some data => (st, json 200 (JArr (map lecturer_json data)))
  end.

(** [app.get("/classes", authenticateToken, ...)] *)
Definition get_classes (st : store) (user : Req.user) : store * http_response :=
  let r := ok (Pg.order_desc Classes.created_at (tbl_classes st)) in
  match error r, data r with
  | Some _, _ => (st, json_error 500 "Failed to fetch classes")
  | None, None => (st, json 200 (JArr []))
  | None, Some data => (st, json 200 (JArr (map Classes.to_json data)))
  end.

(** *** Courses *)

(** The course routes touch the [courses] table and nothing else; their
    state is that table and its key generator. *)
Module Courses.
Record row := {
  course_id : jsval;
  course_code : jsval;
  course_name : jsval;
  faculty : jsval
}.

Definition to_json (c : row) : jsval :=
  JObj [("course_id", course_id c); ("course_code", course_code c);
        ("course_name", course_name c); ("faculty", faculty c)].
End Courses.

Record catalogue := {
  tbl_courses : list Courses.row;
  course_serial : Z
}.

(** The object literal [{ course_code, course_name, faculty }] built from
    the request body. *)
Definition course_fields (body : gmap string jsval) : list (string * jsval) :=
  [("course_code", get body "course_code");
   ("course_name", get body "course_name");
   ("faculty", get body "faculty")].

(** [from("courses").insert([values]).select()] *)
Definition insert_courses (values : list (string * jsval)) (db : catalogue)
  : catalogue * reply (list Courses.row) :=
  let c := {| Courses.course_id := JNum (course_serial db);
              Courses.course_code := Pg.wire (assoc "course_code" values);
              Courses.course_name := Pg.wire (assoc "course_name" values);
              Courses.faculty := Pg.wire (assoc "faculty" values) |} in
  ({| tbl_courses := tbl_courses db ++ [c];
      course_serial := course_serial db + 1 |}, ok [c]).

(** The value of a column after [update(values)]: [JSON.stringify] drops
    a property that is [undefined], which leaves its column alone. *)
Definition updated_column (values : list (string * jsval)) (k : string)
    (old : jsval) : jsval :=
  match assoc k values with
  | JUndefined => old
  | v => Pg.wire v
  end.

Definition updated_course (values : list (string * jsval)) (c : Courses.row)
  : Courses.row :=
  {| Courses.course_id := Courses.course_id c;
     Courses.course_code :=
       updated_column values "course_code" (Courses.course_code c);
     Courses.course_name :=
       updated_column values "course_name" (Courses.course_name c);
     Courses.faculty := updated_column values "faculty" (Courses.faculty c) |}.

(** [from("courses").update(values).eq("course_id", id).select()], for
    values that are the three fields of [course_fields]. *)
Definition update_courses (values : list (string * jsval)) (id : jsval)
    (db : catalogue) : catalogue * reply (list Courses.row) :=
  let hit c := Pg.pg_eq (Courses.course_id c) (ToString id) in
  ({| tbl_courses :=
        map (fun c => if hit c then updated_course values c else c)
          (tbl_courses db);
      course_serial := course_serial db |},
   ok (map (updated_course values) (Pg.eq Courses.course_id id (tbl_courses db)))).

(** [from("courses").delete().eq("course_id", id).select()] *)
Definition delete_courses (id : jsval) (db : catalogue)
  : catalogue * reply (list Courses.row) :=
  ({| tbl_courses :=
        List.filter
          (fun c => negb (Pg.pg_eq (Courses.course_id c) (ToString id)))
          (tbl_courses db);
      course_serial := course_serial db |},
   ok (Pg.eq Courses.course_id id (tbl_courses db))).

(** [app.get("/courses", ...)] *)
Definition get_courses (db : catalogue) : catalogue * http_response :=
  let r := ok (Pg.order_desc Courses.course_id (tbl_courses db)) in
  match error r, data r with
  | Some _, _ => (db, json_error 500 "Failed to fetch courses")
  | None, None => (db, json 200 (JArr []))
  | None, Some data => (db, json 200 (JArr (map Courses.to_json data)))
  end.

(** [app.get("/courses/:id", ...)] *)
Definition get_courses_id (db : catalogue) (id : string)
  : catalogue * http_response :=
  let r := Pg.single (Pg.eq Courses.course_id (JStr id) (tbl_courses db)) in
  match error r, data r with
  | Some _, _ => (db, json_error 500 "Failed to fetch course")
  | None, None => (db, json 200 JNull)
  | None, Some data => (db, json 200 (Courses.to_json data))
  end.

(** [app.post("/courses", ...)] *)
Definition post_courses (db : catalogue) (body : gmap string jsval)
  : catalogue * http_response :=
  let '(db', r) := insert_courses (course_fields body) db in
  match error r, data r with
  | Some _, _ | None, None => (db', json_error 500 "Failed to create course")
  | None, Some data => (db', json 201 (first Courses.to_json data))
  end.

(** [app.put("/courses/:id", ...)] *)
Definition put_courses_id (db : catalogue) (id : string)
    (body : gmap string jsval) : catalogue * http_response :=
  let '(db', r) := update_courses (course_fields body) (JStr id) db in
  match error r, data r with
  | Some _, _ | None, None => (db', json_error 500 "Failed to update course")
  | None, Some data => (db', json 200 (first Courses.to_json data))
  end.

(** [app.delete("/courses/:id", ...)] *)
Definition delete_courses_id (db : catalogue) (id : string)
  : catalogue * http_response :=
  let '(db', r) := delete_courses (JStr id) db in
  match error r, data r with
  | Some _, _ | None, None => (db', json_error 500 "Failed to delete course")
  | None, Some data =>
      (db', json 200 (JObj [("message", JStr "Course deleted successfully");
                            ("course", first Courses.to_json data)]))
  end.

(** A verifier for the sample data: one token verifies, for user A. *)
Definition toy_verify (token : string) : option Req.user :=
  if String.eqb token "tokenA"
  then Some {| Req.id := JNum 1; Req.role := JStr "lecturer";
               Req.name := JStr "A"; Req.email := JStr "a@x.com" |}
  else None.

Definition course_CS : Courses.row :=
  {| Courses.course_id := JNum 7; Courses.course_code := JStr "CS";
     Courses.course_name := JStr "Programming";
     Courses.faculty := JStr "ICT" |}.

Definition course_MA : Courses.row :=
  {| Courses.course_id := JNum 8; Courses.course_code := JStr "MA";
     Courses.course_name := JStr "Algebra";
     Courses.faculty := JStr "Science" |}.

Definition sample_courses : catalogue :=
  {| tbl_courses := [course_CS; course_MA]; course_serial := 9 |}.

(** The row a registration stores, for the hash and the lowered role. *)
Definition registered (st : store) (req : gmap string jsval)
    (hashed lowered : string) : Users.row :=
  {| Users.user_id := JNum (serial st);
     Users.name := get req "name";
     Users.email := get req "email";
     Users.password := JStr hashed;
     Users.role := JStr lowered;
     Users.created_at := JNum (clock st) |}.

(** A registration and the login that follows it. *)
Definition register_C : gmap string jsval :=
  list_to_map [("name", JStr "C"); ("email", JStr "c@x.com");
               ("password", JStr "s3cret"); ("role", JStr "Lecturer")].

Definition login_C : gmap string jsval :=
  list_to_map [("email", JStr "c@x.com"); ("password", JStr "s3cret")].

Definition login_A : gmap string jsval :=
  list_to_map [("email", JStr "a@x.com"); ("password", JStr "p")].

(** The sample store with a second class, of lecturer B, that no report
    references. *)
Definition class_MA201 : Classes.row :=
  {| Classes.id := JNum 11; Classes.class_name := JStr "MA201";
     Classes.course_name := JStr "Algebra"; Classes.course_code := JStr "MA";
     Classes.lecturer := JStr "B"; Classes.schedule := JNull;
     Classes.venue := JNull; Classes.capacity := JNull;
     Classes.status := JStr "active"; Classes.created_by := JStr "B";
     Classes.created_at := JNum 6 |}.

Definition two_classes : store :=
  with_classes sample [class_CS101; class_MA201].

(** A request to create a class. *)
Definition create_CS102 : gmap string jsval :=
  list_to_map [("class_name", JStr "CS102"); ("course_name", JStr "Data");
               ("course_code", JStr "CS"); ("lecturer", JStr "B");
               ("capacity", JStr "25 seats"); ("created_by", JStr "A")].

(** A request to submit a report; the week is not a numeral and the
    body names another submitter. *)
Definition submit_week4 : gmap string jsval :=
  list_to_map [("class_id", JStr "10"); ("week", JStr "four");
               ("date", JStr "2024-02-26"); ("topic", JStr "Files");
               ("actual_students", JNum 31); ("submitted_by", JNum 2)].

(** What [POST /login] signs for a user, and the [req.user] that a
    verified token of that payload gives. *)
Definition payload_of (u : Users.row) : jsval :=
  JObj [("id", Users.user_id u); ("role", Users.role u);
        ("name", Users.name u); ("email", Users.email u)].

Definition claims_of (u : Users.row) : Req.user :=
  {| Req.id := Users.user_id u; Req.role := Users.role u;
     Req.name := Users.name u; Req.email := Users.email u |}.

(** Stand-ins for signing and verifying that agree on user A. *)
Definition sign_A (payload : jsval) : string := "tokenA".

(** Two bodies for the course routes. *)
Definition rename_course : gmap string jsval :=
  list_to_map [("course_name", JStr "Programming I"); ("course_id", JNum 99)].

Definition create_course : gmap string jsval :=
  list_to_map [("course_code", JStr "DB"); ("course_name", JStr "Databases");
               ("faculty", JStr "ICT")].

(** Strings of decimal digits. *)
Definition is_digit (c : ascii) : bool :=
  let n := nat_of_ascii c in ((48 <=? n) && (n <=? 57))%nat.

Fixpoint all_digits (s : string) : bool :=
  match s with
  | EmptyString => true
  | String c s' => is_digit c && all_digits s'
  end.

(** Bodies that carry their numbers as JSON numbers. *)
Definition resize_to_60 : gmap string jsval :=
  list_to_map [("capacity", JNum 60); ("venue", JStr "Hall 2")].

Definition submit_week5 : gmap string jsval :=
  list_to_map [("class_id", JNum 10); ("week", JNum 5);
               ("date", JStr "2024-03-04"); ("topic", JStr "Sorting");
               ("actual_students", JNum 33)].


(** * Properties *)

(** ** Values *)

Lemma strict_eq_true (a b : jsval) : strict_eq a b = true -> a = b.
Proof.
  destruct a, b; simpl; try discriminate; intros H; try reflexivity.
  - apply Bool.eqb_prop in H. congruence.
  - apply Z.eqb_eq in H. congruence.
  - apply String.eqb_eq in H. congruence.
Qed.

Lemma strict_eq_str (v : jsval) (s : string) :
  strict_eq v (JStr s) = true <-> v = JStr s.
Proof.
  split.
  - apply strict_eq_true.
  - intros ->. simpl. apply String.eqb_refl.
Qed.

Lemma strict_eq_str_false (v : jsval) (s : string) :
  v <> JStr s -> strict_eq v (JStr s) = false.
Proof.
  intros Hne. destruct (strict_eq v (JStr s)) eqn:E; [|reflexivity].
  apply strict_eq_true in E. contradiction.
Qed.

Lemma strict_eq_differ (a b : jsval) : a <> b -> strict_eq a b = false.
Proof.
  intros Hne. destruct (strict_eq a b) eqn:E; [|reflexivity].
  apply strict_eq_true in E. contradiction.
Qed.


Lemma js_or_falsy (a b : jsval) : truthy a = false -> js_or a b = b.
Proof. unfold js_or. intros ->. reflexivity. Qed.

Example parseInt_decimal : parseInt (JStr "30") = JNum 30.
Proof. reflexivity. Qed.

Example parseInt_prefix : parseInt (JStr " -12px") = JNum (-12).
Proof. reflexivity. Qed.

Example parseInt_hex : parseInt (JStr "0x1F") = JNum 31.
Proof. reflexivity. Qed.

Example parseInt_no_digit : parseInt (JStr "abc") = JNaN.
Proof. reflexivity. Qed.

Example parseInt_no_break_space :
  parseInt (JStr (String (ascii_of_nat 194) (String (ascii_of_nat 160) " 12")))
  = JNum 12.
Proof. reflexivity. Qed.

Example parseInt_byte_order_mark :
  parseInt (JStr (String (ascii_of_nat 239)
                    (String (ascii_of_nat 187)
                       (String (ascii_of_nat 191) "-7"))))
  = JNum (-7).
Proof. reflexivity. Qed.

Example parseInt_number : parseInt (JNum 42) = JNum 42.
Proof. vm_compute. reflexivity. Qed.

Example ToString_array : ToString (JArr [JNum 1; JNull; JStr "a"]) = "1,,a".
Proof. vm_compute. reflexivity. Qed.

Example toLowerCase_role : toLowerCase (JStr "PrL") = Some "prl".
Proof. reflexivity. Qed.

Example zero_string_truthy : truthy (JStr "0") = true /\ truthy (JNum 0) = false.
Proof. split; reflexivity. Qed.

Lemma wire_truthy (v : jsval) : truthy v = true -> Pg.wire v = v.
Proof. destruct v; simpl; first [discriminate|reflexivity]. Qed.

(** ** Queries *)


Lemma eq_In {R} (column : R -> jsval) (value : jsval) (rows : list R) (r : R) :
  In r (Pg.eq column value rows) <->
  In r rows /\ Pg.pg_eq (column r) (ToString value) = true.
Proof. unfold Pg.eq. apply filter_In. Qed.


Lemma insert_desc_Permutation {R} (column : R -> jsval) (x : R) (l : list R) :
  Permutation (Pg.insert_desc column x l) (x :: l).
Proof.
  induction l as [|y l IH]; simpl.
  - reflexivity.
  - destruct (Pg.pg_ge (column x) (column y)).
    + reflexivity.
    + rewrite IH. apply perm_swap.
Qed.

Lemma order_desc_Permutation {R} (column : R -> jsval) (rows : list R) :
  Permutation (Pg.order_desc column rows) rows.
Proof.
  unfold Pg.order_desc. induction rows as [|x l IH]; simpl.
  - reflexivity.
  - rewrite insert_desc_Permutation. constructor. exact IH.
Qed.

(** ** Reports: who sees what *)








(** A lecturer who asks for the report of another submitter is refused. *)
Lemma get_reports_id_forbidden (st : store) (user : Req.user)
    (reportId : string) (data : Report.joined) :
  Pg.eq (R := Report.joined) Report.report_id (JStr reportId) (select_report st)
  = [data] ->
  Req.role user = JStr "lecturer" ->
  Report.submitted_by data <> Req.id user ->
  get_reports_id st user reportId
  = (st, json_error 403 "Not authorized to view this report").
Proof.
  intros Hrow Hrole Hne. unfold get_reports_id. rewrite Hrow. simpl.
  rewrite Hrole, (strict_eq_differ _ _ Hne). reflexivity.
Qed.

(** No path of [GET /reports/:id] answers 404. *)
Lemma get_reports_id_never_404 (st : store) (user : Req.user)
    (reportId : string) :
  status (snd (get_reports_id st user reportId)) <> 404.
Proof.
  unfold get_reports_id.
  destruct (Pg.eq _ _ _) as [|data [|]]; simpl; try discriminate.
  destruct (_ && _); simpl; discriminate.
Qed.

(** C2. When no report has the id, [single()] reports an error, the route
    throws it and the catch answers 500 "Failed to fetch report", where
    NotFound (404) is expected. *)
Theorem get_reports_id_missing (st : store) (user : Req.user)
    (reportId : string) :
  Pg.eq (R := Report.joined) Report.report_id (JStr reportId) (select_report st)
  = [] ->
  get_reports_id st user reportId
  = (st, json_error 500 "Failed to fetch report").
Proof. intros Hnone. unfold get_reports_id. rewrite Hnone. reflexivity. Qed.

Lemma get_reports_id_missing_witness :
  get_reports_id sample lecturer_A "999"
  = (sample, json_error 500 "Failed to fetch report").
Proof. apply (get_reports_id_missing sample lecturer_A "999"). reflexivity. Defined.

(** ** Classes: ownership *)

(** The gate of the update and of the delete: with the class found, a
    caller who is not "pl" and is not the creator is refused. *)
Lemma not_owner_refused (st : store) (user : Req.user) (classId : string)
    (updates : gmap string jsval) (c : Classes.row) :
  Pg.eq Classes.id (JStr classId) (tbl_classes st) = [c] ->
  Req.role user <> JStr "pl" ->
  Req.name user <> Classes.created_by c ->
  put_classes_id st user classId updates
  = (st, json_error 403 "Not authorized to edit this class")
  /\ delete_classes_id st user classId
     = (st, json_error 403 "Not authorized to delete this class").
Proof.
  intros Hrow Hrole Hname.
  assert (Hcheck : negb (strict_eq (Req.role user) (JStr "pl"))
                   && negb (strict_eq (Classes.created_by c) (Req.name user))
                   = true).
  { rewrite (strict_eq_str_false _ _ Hrole).
    rewrite strict_eq_differ by congruence. reflexivity. }
  unfold put_classes_id, delete_classes_id. rewrite Hrow. simpl.
  rewrite Hcheck. split; reflexivity.
Qed.

(** With the class found, the creator and any "pl" pass the gate: neither
    route answers 403. *)
Lemma owner_or_pl_admitted (st : store) (user : Req.user) (classId : string)
    (updates : gmap string jsval) (c : Classes.row) :
  Pg.eq Classes.id (JStr classId) (tbl_classes st) = [c] ->
  Req.role user = JStr "pl"
  \/ strict_eq (Classes.created_by c) (Req.name user) = true ->
  status (snd (put_classes_id st user classId updates)) <> 403
  /\ status (snd (delete_classes_id st user classId)) <> 403.
Proof.
  intros Hrow Hauth.
  assert (Hcheck : negb (strict_eq (Req.role user) (JStr "pl"))
                   && negb (strict_eq (Classes.created_by c) (Req.name user))
                   = false).
  { destruct Hauth as [-> | ->]; simpl.
    - reflexivity.
    - apply Bool.andb_false_r. }
  unfold put_classes_id, delete_classes_id. rewrite Hrow. simpl.
  rewrite Hcheck. split.
  - unfold update_classes. destruct (decide _); simpl; discriminate.
  - simpl. discriminate.
Qed.

(** C3. On an existing class, a caller who is not "pl" and whose name is
    not the class's [created_by] is refused with 403 by both the update
    and the delete, and the store is left as it was. *)
Theorem classes_owner_or_pl_only (st : store) (user : Req.user)
    (classId : string) (updates : gmap string jsval) (c : Classes.row) :
  Pg.eq Classes.id (JStr classId) (tbl_classes st) = [c] ->
  Req.role user <> JStr "pl" ->
  Req.name user <> Classes.created_by c ->
  put_classes_id st user classId updates
  = (st, json_error 403 "Not authorized to edit this class")
  /\ delete_classes_id st user classId
     = (st, json_error 403 "Not authorized to delete this class").
Proof. apply not_owner_refused. Qed.

Lemma classes_owner_or_pl_only_witness :
  put_classes_id sample lecturer_B "10" {[ "class_name" := JStr "X" ]}
  = (sample, json_error 403 "Not authorized to edit this class")
  /\ delete_classes_id sample lecturer_B "10"
     = (sample, json_error 403 "Not authorized to delete this class").
Proof.
  apply (classes_owner_or_pl_only sample lecturer_B "10" _ class_CS101).
  - reflexivity.
  - discriminate.
  - discriminate.
Defined.

(** ** Reports: reshaping *)







(** C8. In the rows reshaped by the list, the create and the single-get
    routes, [total_registered_students], [venue], [scheduled_time] and
    [faculty_name] are 50, "Room 101", "10:00" and "Faculty of ICT",
    whatever the row; and what those routes return on success is made of
    such rows. *)
Theorem placeholders_hardcoded :
  (forall report, placeholders (transformedData report))
  /\ (forall data0, placeholders (transformedReport_post data0))
  /\ (forall data, placeholders (transformedReport_get data))
  /\ (forall st user,
        exists rows,
          snd (get_reports st user) = json 200 (JArr (map transformedData rows)))
  /\ (forall st user req,
        status (snd (post_reports st user req)) = 201 ->
        exists data0,
          body (snd (post_reports st user req))
          = JObj [("success", JBool true);
                  ("report", transformedReport_post data0)])
  /\ (forall st user reportId,
        status (snd (get_reports_id st user reportId)) = 200 ->
        exists data,
          body (snd (get_reports_id st user reportId))
          = transformedReport_get data).
Proof.
  split; [intros; repeat split|].
  split; [intros; repeat split|].
  split; [intros; repeat split|].
  split; [|split].
  - intros st user. unfold get_reports.
    destruct (strict_eq _ _); simpl; eexists; reflexivity.
  - intros st user req. unfold post_reports.
    destruct (_ || _); simpl; [discriminate|].
    intros _. eexists. reflexivity.
  - intros st user reportId. unfold get_reports_id.
    destruct (Pg.eq _ _ _) as [|data [|]]; simpl; try discriminate.
    destruct (_ && _); simpl; [discriminate|].
    intros _. exists data. reflexivity.
Qed.

Lemma placeholders_hardcoded_witness :
  exists data,
    body (snd (get_reports_id sample lecturer_A "100"))
    = transformedReport_get data
    /\ placeholders (transformedReport_get data).
Proof.
  destruct placeholders_hardcoded as (_ & _ & Hget & _ & _ & Hroute).
  destruct (Hroute sample lecturer_A "100" eq_refl) as [data Hdata].
  exists data. split; [exact Hdata|apply Hget].
Defined.

(** ** Reports: feedback *)

(** [PUT /reports/:id] never writes: whatever the caller and the request,
    the store after the call is the store before it. *)
Lemma put_reports_id_no_write (st : store) (user : Req.user)
    (reportId : string) (req : gmap string jsval) :
  fst (put_reports_id st user reportId req) = st.
Proof.
  unfold put_reports_id. destruct (negb _); [reflexivity|].
  destruct (Pg.eq _ _ _) as [|data [|]]; reflexivity.
Qed.

Lemma transformedReport_put_other_fields (data : Report.joined)
    (feedback : jsval) (k : string) :
  k <> "feedback" ->
  field (transformedReport_put data feedback) k
  = field (transformedReport_get data) k.
Proof.
  intros Hk. unfold transformedReport_put, transformedReport_get, field, assoc.
  repeat match goal with
         | |- context [String.eqb k ?s] =>
             destruct (String.eqb_spec k s); [first [reflexivity|contradiction]|]
         end.
  reflexivity.
Qed.

(** C4 (amended). For a caller whose role is "prl" and an existing
    report, [PUT /reports/:id] leaves the store as it was and returns the
    reshaped fetched report with its [feedback] field set to the supplied
    value when that value is truthy and to the empty string otherwise;
    every other field is the one [GET /reports/:id] returns. *)
Theorem put_reports_id_ephemeral (st : store) (user : Req.user)
    (reportId : string) (req : gmap string jsval) (data : Report.joined) :
  Req.role user = JStr "prl" ->
  Pg.eq (R := Report.joined) Report.report_id (JStr reportId) (select_report st)
  = [data] ->
  put_reports_id st user reportId req
  = (st, json 200
           (JObj [("success", JBool true);
                  ("report", transformedReport_put data (get req "feedback"))]))
  /\ field (transformedReport_put data (get req "feedback")) "feedback"
     = (if truthy (get req "feedback") then get req "feedback" else JStr "")
  /\ (forall k, k <> "feedback" ->
      field (transformedReport_put data (get req "feedback")) k
      = field (transformedReport_get data) k).
Proof.
  intros Hrole Hrow. split; [|split].
  - unfold put_reports_id. rewrite Hrole, Hrow. reflexivity.
  - reflexivity.
  - intros k Hk. apply transformedReport_put_other_fields. exact Hk.
Qed.

Lemma put_reports_id_ephemeral_witness :
  put_reports_id sample prl_P "100" {[ "feedback" := JStr "Well done" ]}
  = (sample,
     json 200
       (JObj [("success", JBool true);
              ("report",
               transformedReport_put (join sample report_100)
                 (get {[ "feedback" := JStr "Well done" ]} "feedback"))]))
  /\ field (transformedReport_put (join sample report_100)
              (get {[ "feedback" := JStr "Well done" ]} "feedback")) "feedback"
     = JStr "Well done".
Proof.
  destruct (put_reports_id_ephemeral sample prl_P "100"
              {[ "feedback" := JStr "Well done" ]} (join sample report_100)
              eq_refl eq_refl) as (Hresp & Hfb & _).
  split; [exact Hresp|exact Hfb].
Defined.

(** C4, as stated, fails: a supplied feedback of 0 is not the feedback of
    the payload, which is the empty string. *)
Lemma put_reports_id_falsy_feedback :
  ({[ "feedback" := JNum 0 ]} : gmap string jsval) !! "feedback" = Some (JNum 0)
  /\ field
       (field (body (snd (put_reports_id sample prl_P "100"
                            {[ "feedback" := JNum 0 ]}))) "report")
       "feedback" = JStr ""
  /\ JStr "" <> JNum 0.
Proof. split; [reflexivity|]. split; [reflexivity|discriminate]. Qed.

(** ** Reports: validation of a new report *)

Lemma post_reports_absent (st : store) (user : Req.user)
    (req : gmap string jsval) (k : string) :
  k = "week" \/ k = "actual_students" ->
  post_reports st user (delete k req) = (st, json_error 400 required_message).
Proof.
  intros [-> | ->]; unfold post_reports, get;
    rewrite lookup_delete_eq; simpl;
    rewrite ?Bool.orb_true_r; reflexivity.
Qed.

(** C10. [POST /reports] tests its required fields by truthiness: a
    request whose [week] or [actual_students] is the number 0 is answered
    400 with the message of a missing field, the very answer the request
    gets with that field removed, and nothing is inserted. *)
Theorem post_reports_zero_is_missing (st : store) (user : Req.user)
    (req : gmap string jsval) :
  (get req "week" = JNum 0 ->
   post_reports st user req = (st, json_error 400 required_message)
   /\ post_reports st user req = post_reports st user (delete "week" req))
  /\ (get req "actual_students" = JNum 0 ->
      post_reports st user req = (st, json_error 400 required_message)
      /\ post_reports st user req
         = post_reports st user (delete "actual_students" req)).
Proof.
  split; intros Hzero.
  - assert (H : post_reports st user req
                = (st, json_error 400 required_message)).
    { unfold post_reports. rewrite Hzero. simpl.
      rewrite ?Bool.orb_true_r. reflexivity. }
    split; [exact H|]. rewrite H. symmetry.
    apply post_reports_absent. left. reflexivity.
  - assert (H : post_reports st user req
                = (st, json_error 400 required_message)).
    { unfold post_reports. rewrite Hzero. simpl.
      rewrite ?Bool.orb_true_r. reflexivity. }
    split; [exact H|]. rewrite H. symmetry.
    apply post_reports_absent. right. reflexivity.
Qed.

Lemma post_reports_zero_is_missing_witness :
  post_reports sample lecturer_A
    (list_to_map [("class_id", JNum 10); ("week", JNum 0);
                  ("date", JStr "2024-03-01"); ("topic", JStr "Sets");
                  ("actual_students", JNum 20)])
  = (sample, json_error 400 required_message).
Proof.
  apply (proj1 (post_reports_zero_is_missing sample lecturer_A _)).
  reflexivity.
Defined.

(** ** Registration and login *)

Lemma filter_unique_singleton {A} (p : A -> bool) (l : list A) (x : A) :
  (length (List.filter p l) <= 1)%nat -> In x l -> p x = true ->
  List.filter p l = [x].
Proof.
  intros Hlen Hin Hp.
  assert (Hx : In x (List.filter p l)) by (apply filter_In; split; assumption).
  destruct (List.filter p l) as [|y [|z l']]; simpl in *.
  - contradiction.
  - destruct Hx as [-> | []]. reflexivity.
  - lia.
Qed.

Lemma emails_unique_lookup (rows : list Users.row) (email : jsval)
    (u : Users.row) :
  emails_unique rows -> In u rows ->
  Pg.pg_eq (Users.email u) (ToString email) = true ->
  Pg.eq Users.email email rows = [u].
Proof.
  intros Huniq Hin Heq. unfold Pg.eq.
  apply filter_unique_singleton; [apply Huniq|exact Hin|exact Heq].
Qed.

Section AuthFacts.

Variable bcrypt_hash : string -> string.
Variable bcrypt_compare : string -> string -> bool.
Variable jwt_sign : jsval -> string.

(** C6 (amended). When the email of a registration request is already
    that of a user, no row is inserted, whatever the request; and a
    request that passes the checks that precede the lookup (the four
    fields truthy, the role a string that names one of the four roles) is
    answered 400 "User already exists". *)
Theorem post_register_conflict (st : store) (req : gmap string jsval)
    (u : Users.row) :
  emails_unique (tbl_users st) ->
  In u (tbl_users st) ->
  Pg.pg_eq (Users.email u) (ToString (get req "email")) = true ->
  fst (post_register bcrypt_hash st req) = st
  /\ (passes_checks req = true ->
      post_register bcrypt_hash st req
      = (st, json_error 400 "User already exists")).
Proof.
  intros Huniq Hin Heq.
  pose proof (emails_unique_lookup _ _ _ Huniq Hin Heq) as Hrow.
  unfold post_register, passes_checks, allowedRoles. rewrite Hrow.
  destruct (truthy (get req "name")); cbn [negb orb andb];
    [|split; [reflexivity|discriminate]].
  destruct (truthy (get req "email")); cbn [negb orb andb];
    [|split; [reflexivity|discriminate]].
  destruct (truthy (get req "password")); cbn [negb orb andb];
    [|split; [reflexivity|discriminate]].
  destruct (truthy (get req "role")); cbn [negb orb andb];
    [|split; [reflexivity|discriminate]].
  destruct (toLowerCase (get req "role")) as [lowered|];
    [|split; [reflexivity|discriminate]].
  destruct (includes _ lowered); cbn [negb];
    [|split; [reflexivity|discriminate]].
  split; [reflexivity|intros _; reflexivity].
Qed.

(** C7. A login that fails because no user has the email and a login
    that fails because the password does not match the stored hash get
    the same answer, 401 "Invalid credentials", so the answer does not
    tell whether the email exists; neither changes the store. *)
Theorem post_login_undifferentiated (st1 st2 : store)
    (req1 req2 : gmap string jsval) (u : Users.row) :
  truthy (get req1 "email") = true ->
  truthy (get req1 "password") = true ->
  Pg.eq Users.email (get req1 "email") (tbl_users st1) = [] ->
  truthy (get req2 "email") = true ->
  truthy (get req2 "password") = true ->
  Pg.maybeSingle (Pg.eq Users.email (get req2 "email") (tbl_users st2)) = ok u ->
  compare bcrypt_compare (get req2 "password") (Users.password u) = Some false ->
  post_login bcrypt_compare jwt_sign st1 req1
  = (st1, json_error 401 "Invalid credentials")
  /\ post_login bcrypt_compare jwt_sign st2 req2
     = (st2, json_error 401 "Invalid credentials")
  /\ snd (post_login bcrypt_compare jwt_sign st1 req1)
     = snd (post_login bcrypt_compare jwt_sign st2 req2).
Proof.
  intros He1 Hp1 Hnone He2 Hp2 Hfound Hcmp.
  assert (H1 : post_login bcrypt_compare jwt_sign st1 req1
               = (st1, json_error 401 "Invalid credentials")).
  { unfold post_login. rewrite He1, Hp1, Hnone. reflexivity. }
  assert (H2 : post_login bcrypt_compare jwt_sign st2 req2
               = (st2, json_error 401 "Invalid credentials")).
  { unfold post_login. rewrite He2, Hp2, Hfound. simpl. rewrite Hcmp.
    reflexivity. }
  split; [exact H1|]. split; [exact H2|]. rewrite H1, H2. reflexivity.
Qed.

(** Registration keeps the emails unique: it inserts only after a lookup
    that found no row. *)
Lemma post_register_keeps_unique (st : store) (req : gmap string jsval) :
  emails_unique (tbl_users st) ->
  emails_unique (tbl_users (fst (post_register bcrypt_hash st req))).
Proof.
  intros Huniq. unfold post_register.
  destruct (negb (truthy (get req "name"))); cbn [orb]; [exact Huniq|].
  destruct (truthy (get req "email")) eqn:Hemail; cbn [negb orb];
    [|exact Huniq].
  destruct (_ || _); [exact Huniq|].
  destruct (toLowerCase _) as [lowered|]; [|exact Huniq].
  destruct (negb _); [exact Huniq|].
  pose proof (Huniq (ToString (get req "email"))) as Hone.
  unfold Pg.eq.
  destruct (List.filter _ (tbl_users st)) as [|u [|u' l]] eqn:Hlook;
    cbn [Pg.maybeSingle data ok ok_null failed]; try exact Huniq.
  - destruct (hash _ _) as [hashed|]; [|exact Huniq].
    cbn [insert_users assoc String.eqb Ascii.eqb Bool.eqb fst error data ok
         tick with_users tbl_users].
    intros e. rewrite List.filter_app, length_app. cbn [List.filter].
    cbn [Users.email]. rewrite (wire_truthy _ Hemail).
    destruct (Pg.pg_eq (get req "email") e) eqn:Hhit; cbn [length].
    + assert (He : ToString (get req "email") = e).
      { unfold Pg.pg_eq in Hhit.
        destruct (get req "email"); try discriminate;
          apply String.eqb_eq in Hhit; exact Hhit. }
      subst e. rewrite Hlook. reflexivity.
    + pose proof (Huniq e). lia.
  - cbn [length] in Hone. lia.
Qed.

End AuthFacts.

Lemma sample_emails_unique : emails_unique (tbl_users sample).
Proof.
  intros e. unfold sample, user_A, user_B.
  cbn [tbl_users List.filter Pg.pg_eq Users.email ToString].
  destruct (String.eqb_spec "a@x.com" e) as [Ha|Ha],
           (String.eqb_spec "b@x.com" e) as [Hb|Hb];
    cbn [length]; try lia.
  subst e. discriminate.
Qed.

Lemma post_register_conflict_witness :
  post_register toy_hash sample
    (list_to_map [("name", JStr "C"); ("email", JStr "a@x.com");
                  ("password", JStr "s3cret"); ("role", JStr "Lecturer")])
  = (sample, json_error 400 "User already exists").
Proof.
  apply (post_register_conflict toy_hash sample _ user_A).
  - exact sample_emails_unique.
  - left. reflexivity.
  - reflexivity.
  - reflexivity.
Defined.

(** C6, as stated, fails: with an email that exists, a role outside the
    four is answered by the role check, and a role that is not a string
    makes [role.toLowerCase()] throw, which the catch answers with 500. *)
Lemma post_register_checks_come_first :
  Pg.eq Users.email (JStr "a@x.com") (tbl_users sample) = [user_A]
  /\ snd (post_register toy_hash sample
            (list_to_map [("name", JStr "C"); ("email", JStr "a@x.com");
                          ("password", JStr "s3cret"); ("role", JStr "admin")]))
     = json_error 400 "Invalid role selected"
  /\ snd (post_register toy_hash sample
            (list_to_map [("name", JStr "C"); ("email", JStr "a@x.com");
                          ("password", JStr "s3cret"); ("role", JNum 5)]))
     = json_error 500 "Registration failed"
  /\ json_error 400 "Invalid role selected"
     <> json_error 400 "User already exists"
  /\ status (json_error 500 "Registration failed") <> 400.
Proof. repeat split; discriminate. Qed.

(** Outside the two cases of C7: a password that is not a string makes
    [bcrypt.compare] throw once a user is found, and only then. *)
Lemma post_login_password_not_string :
  snd (post_login toy_compare toy_sign sample
         (list_to_map [("email", JStr "a@x.com"); ("password", JNum 5)]))
  = json_error 500 "Login failed"
  /\ snd (post_login toy_compare toy_sign sample
            (list_to_map [("email", JStr "nobody@x.com"); ("password", JNum 5)]))
     = json_error 401 "Invalid credentials".
Proof. split; reflexivity. Qed.

Lemma post_login_undifferentiated_witness :
  post_login toy_compare toy_sign sample
    (list_to_map [("email", JStr "nobody@x.com"); ("password", JStr "p")])
  = (sample, json_error 401 "Invalid credentials")
  /\ post_login toy_compare toy_sign sample
       (list_to_map [("email", JStr "a@x.com"); ("password", JStr "wrong")])
     = (sample, json_error 401 "Invalid credentials")
  /\ snd (post_login toy_compare toy_sign sample
            (list_to_map [("email", JStr "nobody@x.com"); ("password", JStr "p")]))
     = snd (post_login toy_compare toy_sign sample
              (list_to_map [("email", JStr "a@x.com"); ("password", JStr "wrong")])).
Proof.
  apply (post_login_undifferentiated toy_compare toy_sign sample sample _ _ user_A);
    reflexivity.
Defined.

(** ** Classes: what an update writes *)

Lemma coerce_capacity_lookup (updates : gmap string jsval) (k : string) :
  k <> "capacity" -> coerce_capacity updates !! k = updates !! k.
Proof.
  intros Hk. unfold coerce_capacity.
  destruct (truthy _); [|reflexivity].
  apply lookup_insert_ne. congruence.
Qed.

Lemma coerce_capacity_columns (updates : gmap string jsval) :
  map_Forall (fun k _ => k ∈ Classes.columns) updates ->
  map_Forall (fun k _ => k ∈ Classes.columns) (coerce_capacity updates).
Proof.
  intros Hcols. unfold coerce_capacity.
  destruct (truthy _); [|exact Hcols].
  apply map_Forall_insert_2; [|exact Hcols].
  unfold Classes.columns. set_solver.
Qed.

(** A patch without [id] leaves the key of a row alone. *)
Lemma patched_id (values : gmap string jsval) (c : Classes.row) :
  values !! "id" = None -> Classes.id (patched values c) = Classes.id c.
Proof. intros Hid. simpl. unfold patch_column. rewrite Hid. reflexivity. Qed.

(** Each column of a patched row: the patch's value where the patch has
    the column. *)
Lemma patched_column (values : gmap string jsval) (c : Classes.row)
    (k : string) (x : jsval) :
  k ∈ Classes.columns -> values !! k = Some x -> x <> JUndefined ->
  field (Classes.to_json (patched values c)) k = Pg.wire x.
Proof.
  intros Hk Hx Hdef. unfold Classes.columns in Hk.
  repeat (apply elem_of_cons in Hk as [-> | Hk];
          [simpl; unfold patch_column; rewrite Hx;
           destruct x; first [reflexivity|contradiction]|]).
  inversion Hk.
Qed.

(** The rows an update keeps under the same key are the patched rows. *)
Lemma eq_id_after_update (values : gmap string jsval) (classId : string)
    (rows : list Classes.row) :
  values !! "id" = None ->
  Pg.eq Classes.id (JStr classId)
    (map (fun c => if Pg.pg_eq (Classes.id c) classId
                   then patched values c else c) rows)
  = map (patched values) (Pg.eq Classes.id (JStr classId) rows).
Proof.
  intros Hid. unfold Pg.eq. simpl ToString.
  induction rows as [|c rows IH]; [reflexivity|].
  cbn [map List.filter].
  destruct (Pg.pg_eq (Classes.id c) classId) eqn:Hhit.
  - rewrite (patched_id _ _ Hid), Hhit. cbn [map]. f_equal. exact IH.
  - rewrite Hhit. exact IH.
Qed.

(** What [PUT /classes/:id] does once the caller has passed the gate. *)
Lemma put_classes_id_admitted (st : store) (user : Req.user)
    (classId : string) (updates : gmap string jsval) (c : Classes.row) :
  Pg.eq Classes.id (JStr classId) (tbl_classes st) = [c] ->
  Req.role user = JStr "pl"
  \/ strict_eq (Classes.created_by c) (Req.name user) = true ->
  map_Forall (fun k _ => k ∈ Classes.columns) updates ->
  put_classes_id st user classId updates
  = (with_classes st
       (map (fun r => if Pg.pg_eq (Classes.id r) classId
                      then patched (coerce_capacity updates) r else r)
          (tbl_classes st)),
     json 200
       (JObj [("success", JBool true);
              ("class",
               Classes.to_json (patched (coerce_capacity updates) c))])).
Proof.
  intros Hrow Hauth Hcols.
  assert (Hcheck : negb (strict_eq (Req.role user) (JStr "pl"))
                   && negb (strict_eq (Classes.created_by c) (Req.name user))
                   = false).
  { destruct Hauth as [-> | ->]; simpl.
    - reflexivity.
    - apply Bool.andb_false_r. }
  unfold put_classes_id. rewrite Hrow. simpl. rewrite Hcheck.
  unfold update_classes.
  destruct (decide _) as [_|Hbad].
  - rewrite Hrow. reflexivity.
  - exfalso. apply Hbad. apply coerce_capacity_columns. exact Hcols.
Qed.

(** C9 (amended). [PUT /classes/:id] hands the request body to the store
    as the patch with no field removed and one field changed: a truthy
    [capacity] is replaced by [parseInt(capacity)].  Every other field of
    the body, [created_by] among them, is written as sent (the fields
    being columns of the table, which the store requires).  So a caller
    who passes the gate can set [created_by], and from then on, among the
    callers who are not "pl", the one of that name passes the gate of the
    update and of the delete of that class (still found under its id, the
    body not touching [id]) and every other one is refused. *)
Theorem put_classes_id_rewrites_owner (st : store) (user : Req.user)
    (classId : string) (updates : gmap string jsval) (c : Classes.row)
    (owner : string) :
  Pg.eq Classes.id (JStr classId) (tbl_classes st) = [c] ->
  Req.role user = JStr "pl"
  \/ strict_eq (Classes.created_by c) (Req.name user) = true ->
  map_Forall (fun k _ => k ∈ Classes.columns) updates ->
  updates !! "id" = None ->
  updates !! "created_by" = Some (JStr owner) ->
  let st' := fst (put_classes_id st user classId updates) in
  let c' := patched (coerce_capacity updates) c in
  snd (put_classes_id st user classId updates)
  = json 200 (JObj [("success", JBool true); ("class", Classes.to_json c')])
  /\ Pg.eq Classes.id (JStr classId) (tbl_classes st') = [c']
  /\ (forall k x,
        k <> "capacity" -> updates !! k = Some x -> x <> JUndefined ->
        field (Classes.to_json c') k = Pg.wire x)
  /\ (forall x,
        updates !! "capacity" = Some x -> x <> JUndefined ->
        Classes.capacity c'
        = if truthy x then Pg.wire (parseInt x) else Pg.wire x)
  /\ Classes.created_by c' = JStr owner
  /\ (forall user' updates',
        Req.role user' <> JStr "pl" ->
        (Req.name user' <> JStr owner ->
         put_classes_id st' user' classId updates'
         = (st', json_error 403 "Not authorized to edit this class")
         /\ delete_classes_id st' user' classId
            = (st', json_error 403 "Not authorized to delete this class"))
        /\ (Req.name user' = JStr owner ->
            status (snd (put_classes_id st' user' classId updates')) <> 403
            /\ status (snd (delete_classes_id st' user' classId)) <> 403)).
Proof.
  intros Hrow Hauth Hcols Hid Howner st' c'.
  pose proof (put_classes_id_admitted st user classId updates c Hrow Hauth Hcols)
    as Hput.
  assert (Hid' : coerce_capacity updates !! "id" = None).
  { rewrite coerce_capacity_lookup by discriminate. exact Hid. }
  assert (Hrow' : Pg.eq Classes.id (JStr classId) (tbl_classes st') = [c']).
  { subst st'. rewrite Hput. cbn [fst with_classes tbl_classes].
    rewrite (eq_id_after_update _ _ _ Hid'), Hrow. reflexivity. }
  assert (Hby : Classes.created_by c' = JStr owner).
  { subst c'. cbn [patched Classes.created_by]. unfold patch_column.
    rewrite coerce_capacity_lookup by discriminate. rewrite Howner.
    reflexivity. }
  split; [rewrite Hput; reflexivity|].
  split; [exact Hrow'|].
  split; [|split; [|split; [exact Hby|]]].
  - intros k x Hk Hx Hdef. apply patched_column.
    + apply (map_Forall_lookup_1 _ _ _ _ Hcols Hx).
    + rewrite coerce_capacity_lookup by exact Hk. exact Hx.
    + exact Hdef.
  - intros x Hx Hdef. subst c'. cbn [patched Classes.capacity].
    unfold patch_column, coerce_capacity, get. rewrite Hx. simpl default.
    destruct (truthy x) eqn:Ht.
    + rewrite lookup_insert_eq.
      unfold parseInt.
      repeat match goal with
             | |- context [let '(_, _) := ?e in _] => destruct e
             end.
      destruct (digits _ _ _); reflexivity.
    + rewrite Hx. destruct x; first [reflexivity|contradiction].
  - intros user' updates' Hrole'. split.
    + intros Hname. apply (not_owner_refused st' user' classId updates' c').
      * exact Hrow'.
      * exact Hrole'.
      * rewrite Hby. exact Hname.
    + intros Hname. apply (owner_or_pl_admitted st' user' classId updates' c').
      * exact Hrow'.
      * right. rewrite Hby, Hname. simpl. apply String.eqb_refl.
Qed.

Lemma put_classes_id_rewrites_owner_witness :
  Classes.created_by
    (patched
       (coerce_capacity take_over)
       class_CS101) = JStr "B"
  /\ (forall user' updates',
        Req.role user' <> JStr "pl" ->
        Req.name user' <> JStr "B" ->
        put_classes_id
          (fst (put_classes_id sample lecturer_A "10"
                  take_over))
          user' "10" updates'
        = (fst (put_classes_id sample lecturer_A "10"
                  take_over),
           json_error 403 "Not authorized to edit this class")).
Proof.
  assert (Hcols : map_Forall (fun k (_ : jsval) => k ∈ Classes.columns)
                    take_over).
  { unfold take_over. apply map_Forall_insert_2; [unfold Classes.columns; set_solver|].
    apply map_Forall_singleton. unfold Classes.columns. set_solver. }
  destruct (put_classes_id_rewrites_owner sample lecturer_A "10"
              take_over
              class_CS101 "B" eq_refl (or_intror eq_refl) Hcols eq_refl eq_refl)
    as (_ & _ & _ & _ & Hby & Hnext).
  split; [exact Hby|].
  intros user' updates' Hrole Hname.
  apply (proj1 (Hnext user' updates' Hrole)). exact Hname.
Defined.

(** C9, as stated, fails for [capacity]: the body carries the string "30"
    and the row is written the number 30, where the body handed over as
    it is would have written the string. *)
Lemma put_classes_id_not_verbatim :
  Classes.capacity
    <$> tbl_classes (fst (put_classes_id sample lecturer_A "10"
                            resize))
  = [JNum 30]
  /\ Classes.capacity
       <$> tbl_classes (fst (update_classes resize
                               (JStr "10") sample))
     = [JStr "30"].
Proof. split; vm_compute; reflexivity. Qed.

(** * Further properties of the routes *)

(** ** The token gate *)

Lemma split_space_no_space (t : string) :
  has_space t = false -> split_space t = [t].
Proof.
  induction t as [|c t IH]; simpl; [reflexivity|].
  destruct (Ascii.eqb c " "); simpl; [discriminate|].
  intros H. rewrite (IH H). reflexivity.
Qed.

Lemma split_space_app (a b : string) :
  has_space a = false ->
  split_space (a +:+ String " " b) = a :: split_space b.
Proof.
  induction a as [|c a IH]; simpl; [reflexivity|].
  destruct (Ascii.eqb c " "); simpl; [discriminate|].
  intros H. rewrite (IH H). reflexivity.
Qed.

Lemma append_empty_r (t : string) : t +:+ "" = t.
Proof.
  induction t as [|c t IH]; [reflexivity|].
  change (String c (t +:+ "") = String c t). f_equal. exact IH.
Qed.

(** The first word of a text that is a word followed by nothing or by a
    space. *)
Lemma split_space_first (t rest : string) :
  has_space t = false ->
  rest = "" \/ (exists r, rest = String " " r) ->
  exists ws, split_space (t +:+ rest) = t :: ws.
Proof.
  intros Ht [-> | [r ->]].
  - exists []. rewrite append_empty_r.
    apply split_space_no_space. exact Ht.
  - exists (split_space r). apply split_space_app. exact Ht.
Qed.

Lemma append_not_empty (a b : string) : String.eqb (a +:+ String " " b) "" = false.
Proof. destruct a; reflexivity. Qed.

Section GateFacts.

Variable jwt_verify : string -> option Req.user.

(** The gate reads the second word of the header and nothing else: the
    word before it is not compared with "Bearer", and what follows the
    next space is dropped.  With a token that verifies the handler runs
    for the user of the token; with one that does not, the answer is 403
    and the handler does not run. *)
Theorem guarded_reads_second_word (scheme token rest : string) (st : store)
    (handler : Req.user -> store * http_response) :
  has_space scheme = false ->
  has_space token = false ->
  token <> "" ->
  rest = "" \/ (exists r, rest = String " " r) ->
  guarded jwt_verify (Some (scheme +:+ String " " (token +:+ rest))) st handler
  = match jwt_verify token with
    | Some user => handler user
    | None => (st, json_error 403 "Invalid or expired token")
    end.
Proof.
  intros Hscheme Htoken Hne Hrest.
  destruct (split_space_first token rest Htoken Hrest) as [ws Hws].
  unfold guarded, authenticateToken.
  cbn [truthy]. rewrite append_not_empty. cbn [negb].
  rewrite (split_space_app _ _ Hscheme), Hws. cbn [lookup list_lookup].
  cbn [truthy].
  destruct (String.eqb_spec token "") as [->|_]; [contradiction|].
  cbn [negb]. destruct (jwt_verify token); reflexivity.
Qed.

(** Without a second word in the header there is no token: an absent
    header, a header of one word, and a header whose first space is
    followed by nothing or by another space are all answered 401, the
    verifier is not asked and the handler does not run. *)
Theorem guarded_no_token (authorization : option string) (st : store)
    (handler : Req.user -> store * http_response) :
  authorization = None
  \/ (exists word, authorization = Some word /\ has_space word = false)
  \/ (exists scheme rest,
        authorization = Some (scheme +:+ String " " rest)
        /\ has_space scheme = false
        /\ (rest = "" \/ exists r, rest = String " " r)) ->
  guarded jwt_verify authorization st handler
  = (st, json_error 401 "No token provided").
Proof.
  intros [-> | [[word [-> Hword]] | [scheme [rest [-> [Hscheme Hrest]]]]]].
  - reflexivity.
  - unfold guarded, authenticateToken. cbn [truthy].
    destruct (String.eqb_spec word "") as [->|_]; [reflexivity|].
    cbn [negb]. rewrite (split_space_no_space _ Hword). reflexivity.
  - destruct (split_space_first "" rest eq_refl Hrest) as [ws Hws].
    change ("" +:+ rest) with rest in Hws.
    unfold guarded, authenticateToken. cbn [truthy].
    rewrite append_not_empty. cbn [negb].
    rewrite (split_space_app _ _ Hscheme), Hws. reflexivity.
Qed.

End GateFacts.

Lemma guarded_reads_second_word_witness :
  guarded toy_verify (Some "Basic tokenA trailing") sample
    (fun user => get_reports sample user)
  = get_reports sample lecturer_A.
Proof.
  apply (guarded_reads_second_word toy_verify "Basic" "tokenA" " trailing"
           sample (fun user => get_reports sample user)).
  - reflexivity.
  - reflexivity.
  - discriminate.
  - right. exists "trailing". reflexivity.
Defined.

Lemma guarded_no_token_witness :
  guarded toy_verify (Some "Bearer  tokenA") sample
    (fun user => delete_classes_id sample user "10")
  = (sample, json_error 401 "No token provided").
Proof.
  apply (guarded_no_token toy_verify (Some "Bearer  tokenA") sample).
  right. right. exists "Bearer", " tokenA".
  split; [reflexivity|]. split; [reflexivity|].
  right. exists "tokenA". reflexivity.
Defined.

(** ** Registration, then login *)

Lemma pg_eq_self (v : jsval) :
  truthy v = true -> Pg.pg_eq v (ToString v) = true.
Proof.
  destruct v as [| |[|]| | | | |]; simpl; try discriminate; intros _;
    first [reflexivity|apply String.eqb_refl].
Qed.

Lemma passes_checks_inv (req : gmap string jsval) :
  passes_checks req = true ->
  truthy (get req "name") = true /\ truthy (get req "email") = true
  /\ truthy (get req "password") = true /\ truthy (get req "role") = true
  /\ exists lowered,
       toLowerCase (get req "role") = Some lowered
       /\ includes ["student"; "lecturer"; "prl"; "pl"] lowered = true.
Proof.
  unfold passes_checks. intros H.
  apply andb_prop in H as [H Hrole]. apply andb_prop in H as [H Hr].
  apply andb_prop in H as [H Hp]. apply andb_prop in H as [Hn He].
  repeat (split; [assumption|]).
  destruct (toLowerCase _) as [lowered|]; [|discriminate].
  exists lowered. split; [reflexivity|exact Hrole].
Qed.

Section AccountFacts.

Variable bcrypt_hash : string -> string.
Variable bcrypt_compare : string -> string -> bool.
Variable jwt_sign : jsval -> string.

(** The run of a registration that meets no obstacle. *)
Lemma post_register_inserts (st : store) (req : gmap string jsval)
    (pw lowered : string) :
  passes_checks req = true ->
  get req "password" = JStr pw ->
  toLowerCase (get req "role") = Some lowered ->
  Pg.eq Users.email (get req "email") (tbl_users st) = [] ->
  post_register bcrypt_hash st req
  = (tick (with_users st
             (tbl_users st ++ [registered st req (bcrypt_hash pw) lowered])),
     json 201
       (JObj [("success", JBool true);
              ("message", JStr "User registered");
              ("user",
               Users.to_json (registered st req (bcrypt_hash pw) lowered))])).
Proof.
  intros Hchecks Hpw Hrole Hfree.
  destruct (passes_checks_inv _ Hchecks)
    as (Hn & He & Hp & Hr & lowered' & Hlow & Hallowed).
  rewrite Hrole in Hlow. injection Hlow as <-.
  unfold post_register. rewrite Hn, He, Hp, Hr. cbn [negb orb].
  rewrite Hrole. unfold allowedRoles. rewrite Hallowed. cbn [negb].
  rewrite Hfree. cbn [Pg.maybeSingle data ok_null]. rewrite Hpw.
  cbn [hash]. unfold insert_users.
  cbn [assoc String.eqb Ascii.eqb Bool.eqb].
  rewrite (wire_truthy _ Hn), (wire_truthy _ He).
  reflexivity.
Qed.

(** A registration that passes the checks, with a password that is a
    string and an email that no user has, is answered 201 and appends one
    user: the one of the request with the role in lower case and the hash
    in place of the password.  The other tables are left alone, and the
    answer carries the whole stored row, the hash included. *)
Theorem post_register_created (st : store) (req : gmap string jsval)
    (pw lowered : string) :
  passes_checks req = true ->
  get req "password" = JStr pw ->
  toLowerCase (get req "role") = Some lowered ->
  Pg.eq Users.email (get req "email") (tbl_users st) = [] ->
  let u := registered st req (bcrypt_hash pw) lowered in
  let st' := fst (post_register bcrypt_hash st req) in
  snd (post_register bcrypt_hash st req)
  = json 201 (JObj [("success", JBool true);
                    ("message", JStr "User registered");
                    ("user", Users.to_json u)])
  /\ tbl_users st' = (tbl_users st ++ [u])%list
  /\ tbl_classes st' = tbl_classes st
  /\ tbl_report st' = tbl_report st
  /\ field (Users.to_json u) "password" = JStr (bcrypt_hash pw).
Proof.
  intros Hchecks Hpw Hrole Hfree u st'. subst st'.
  rewrite (post_register_inserts st req pw lowered Hchecks Hpw Hrole Hfree).
  repeat split.
Qed.

(** Registration followed by a login with the same email and password
    succeeds, provided the hash compares with the password it was made
    from: the answer is 200 with the token signed for the new user's id,
    role, name and email, and with that user less its password. *)
Theorem register_then_login (st : store) (req login : gmap string jsval)
    (pw lowered : string) :
  passes_checks req = true ->
  get req "password" = JStr pw ->
  toLowerCase (get req "role") = Some lowered ->
  Pg.eq Users.email (get req "email") (tbl_users st) = [] ->
  bcrypt_compare pw (bcrypt_hash pw) = true ->
  get login "email" = get req "email" ->
  get login "password" = get req "password" ->
  let u := registered st req (bcrypt_hash pw) lowered in
  let st' := fst (post_register bcrypt_hash st req) in
  post_login bcrypt_compare jwt_sign st' login
  = (st',
     json 200
       (JObj [("success", JBool true);
              ("message", JStr "Login successful");
              ("token",
               JStr (jwt_sign (JObj [("id", Users.user_id u);
                                     ("role", JStr lowered);
                                     ("name", get req "name");
                                     ("email", get req "email")])));
              ("user", JObj [("id", Users.user_id u);
                             ("name", get req "name");
                             ("email", get req "email");
                             ("role", JStr lowered)])])).
Proof.
  intros Hchecks Hpw Hrole Hfree Hcmp Hemail Hpass u st'.
  assert (Husers : tbl_users st' = (tbl_users st ++ [u])%list).
  { subst st'.
    rewrite (post_register_inserts st req pw lowered Hchecks Hpw Hrole Hfree).
    reflexivity. }
  destruct (passes_checks_inv _ Hchecks) as (_ & He & Hp & _).
  assert (Hfound : Pg.eq Users.email (get req "email") (tbl_users st') = [u]).
  { rewrite Husers. unfold Pg.eq in *. rewrite List.filter_app, Hfree.
    cbn [List.filter app]. cbn [Users.email u registered].
    rewrite (pg_eq_self _ He). reflexivity. }
  unfold post_login. rewrite Hemail, Hpass, He, Hp. cbn [negb orb].
  rewrite Hfound. cbn [Pg.maybeSingle error data ok].
  rewrite Hpw. cbn [Users.password u registered compare].
  rewrite Hcmp. reflexivity.
Qed.

(** A login is answered 200 only for a stored user whose email the store
    equates with the one sent and whose stored hash compares with the
    password sent; and no login changes the store. *)
Theorem post_login_sound (st : store) (req : gmap string jsval) :
  fst (post_login bcrypt_compare jwt_sign st req) = st
  /\ (status (snd (post_login bcrypt_compare jwt_sign st req)) = 200 ->
      exists u pw h,
        In u (tbl_users st)
        /\ Pg.pg_eq (Users.email u) (ToString (get req "email")) = true
        /\ get req "password" = JStr pw
        /\ Users.password u = JStr h
        /\ bcrypt_compare pw h = true).
Proof.
  unfold post_login.
  destruct (_ || _); [split; [reflexivity|discriminate]|].
  destruct (Pg.eq Users.email (get req "email") (tbl_users st))
    as [|u [|u' l]] eqn:Hlook;
    cbn [Pg.maybeSingle error data ok ok_null failed];
    try (split; [reflexivity|discriminate]).
  destruct (compare _ _ _) as [[|]|] eqn:Hcmp;
    try (split; [reflexivity|discriminate]).
  split; [reflexivity|]. intros _.
  assert (Hin : In u (Pg.eq Users.email (get req "email") (tbl_users st)))
    by (rewrite Hlook; left; reflexivity).
  apply eq_In in Hin as [Hin Heq].
  unfold compare in Hcmp.
  destruct (get req "password") as [| | | | |pw| |] eqn:Hpw; try discriminate.
  destruct (Users.password u) as [| | | | |h| |] eqn:Hh; try discriminate.
  injection Hcmp as Hcmp. exists u, pw, h.
  split; [exact Hin|]. split; [exact Heq|]. split; [reflexivity|].
  split; [exact Hh|exact Hcmp].
Qed.

End AccountFacts.

Lemma post_register_created_witness :
  snd (post_register toy_hash sample register_C)
  = json 201
      (JObj [("success", JBool true);
             ("message", JStr "User registered");
             ("user",
              Users.to_json
                (registered sample register_C (toy_hash "s3cret") "lecturer"))])
  /\ tbl_users (fst (post_register toy_hash sample register_C))
     = [user_A; user_B;
        registered sample register_C (toy_hash "s3cret") "lecturer"].
Proof.
  destruct (post_register_created toy_hash sample register_C "s3cret"
              "lecturer" eq_refl eq_refl eq_refl eq_refl)
    as (Hresp & Husers & _).
  split; [exact Hresp|exact Husers].
Defined.

Lemma register_then_login_witness :
  status (snd (post_login toy_compare toy_sign
                 (fst (post_register toy_hash sample register_C)) login_C))
  = 200.
Proof.
  rewrite (register_then_login toy_hash toy_compare toy_sign sample
             register_C login_C "s3cret" "lecturer");
    reflexivity.
Defined.

Lemma post_login_sound_witness :
  exists u pw h,
    In u (tbl_users sample)
    /\ Pg.pg_eq (Users.email u) (ToString (get login_A "email")) = true
    /\ get login_A "password" = JStr pw
    /\ Users.password u = JStr h
    /\ toy_compare pw h = true.
Proof.
  apply (proj2 (post_login_sound toy_compare toy_sign sample login_A)).
  reflexivity.
Defined.

Lemma post_register_keeps_unique_witness :
  emails_unique (tbl_users (fst (post_register toy_hash sample register_C))).
Proof.
  apply (post_register_keeps_unique toy_hash sample register_C).
  exact sample_emails_unique.
Defined.

(** ** Classes: missing rows, deletion, creation *)

(** When the lookup of the class does not yield exactly one row, the
    update and the delete answer 404 before any test of the caller, and
    the store is left as it was. *)
Theorem classes_missing_not_found (st : store) (user : Req.user)
    (classId : string) (updates : gmap string jsval) :
  (forall c, Pg.eq Classes.id (JStr classId) (tbl_classes st) <> [c]) ->
  put_classes_id st user classId updates
  = (st, json_error 404 "Class not found")
  /\ delete_classes_id st user classId
     = (st, json_error 404 "Class not found").
Proof.
  intros Hnone. unfold put_classes_id, delete_classes_id.
  destruct (Pg.eq Classes.id (JStr classId) (tbl_classes st)) as [|c [|c' l]].
  - split; reflexivity.
  - exfalso. apply (Hnone c). reflexivity.
  - split; reflexivity.
Qed.

Lemma classes_missing_not_found_witness :
  put_classes_id sample pl_L "999" resize
  = (sample, json_error 404 "Class not found")
  /\ delete_classes_id sample pl_L "999"
     = (sample, json_error 404 "Class not found").
Proof.
  apply (classes_missing_not_found sample pl_L "999" resize).
  intros c. discriminate.
Defined.

Lemma filter_negb_then_filter {A} (p : A -> bool) (l : list A) :
  List.filter p (List.filter (fun x => negb (p x)) l) = [].
Proof.
  induction l as [|x l IH]; simpl; [reflexivity|].
  destruct (p x) eqn:Hp; simpl; [exact IH|].
  rewrite Hp. exact IH.
Qed.

(** The creator or a "pl" who deletes an existing class that no report
    references (the store could refuse the delete of a referenced one) is
    answered 200; afterwards no class has the id, so a further update or
    delete of it is answered 404; the classes left are exactly those of
    another id, and the users and the reports are as before. *)
Theorem delete_classes_id_removes (st : store) (user : Req.user)
    (classId : string) (c : Classes.row) :
  Pg.eq Classes.id (JStr classId) (tbl_classes st) = [c] ->
  Req.role user = JStr "pl"
  \/ strict_eq (Classes.created_by c) (Req.name user) = true ->
  (forall r, In r (tbl_report st) ->
             Pg.pg_eq (Report.class_id r) classId = false) ->
  let st' := fst (delete_classes_id st user classId) in
  snd (delete_classes_id st user classId)
  = json 200 (JObj [("success", JBool true);
                    ("message", JStr "Class deleted successfully")])
  /\ Pg.eq Classes.id (JStr classId) (tbl_classes st') = []
  /\ (forall r, In r (tbl_classes st') <->
                In r (tbl_classes st)
                /\ Pg.pg_eq (Classes.id r) classId = false)
  /\ tbl_users st' = tbl_users st
  /\ tbl_report st' = tbl_report st
  /\ (forall user' updates,
        put_classes_id st' user' classId updates
        = (st', json_error 404 "Class not found")
        /\ delete_classes_id st' user' classId
           = (st', json_error 404 "Class not found")).
Proof.
  intros Hrow Hauth _ st'.
  assert (Hcheck : negb (strict_eq (Req.role user) (JStr "pl"))
                   && negb (strict_eq (Classes.created_by c) (Req.name user))
                   = false).
  { destruct Hauth as [-> | ->]; simpl.
    - reflexivity.
    - apply Bool.andb_false_r. }
  assert (Hrun : delete_classes_id st user classId
                 = (with_classes st
                      (List.filter
                         (fun r => negb (Pg.pg_eq (Classes.id r) classId))
                         (tbl_classes st)),
                    json 200 (JObj [("success", JBool true);
                                    ("message",
                                     JStr "Class deleted successfully")]))).
  { unfold delete_classes_id. rewrite Hrow. simpl. rewrite Hcheck.
    reflexivity. }
  assert (Hgone : Pg.eq Classes.id (JStr classId) (tbl_classes st') = []).
  { subst st'. rewrite Hrun. cbn [fst with_classes tbl_classes].
    unfold Pg.eq. simpl ToString.
    apply (filter_negb_then_filter
             (fun r => Pg.pg_eq (Classes.id r) classId)). }
  split; [rewrite Hrun; reflexivity|].
  split; [exact Hgone|].
  split; [|split; [|split]].
  - intros r. subst st'. rewrite Hrun. cbn [fst with_classes tbl_classes].
    rewrite filter_In. rewrite Bool.negb_true_iff. reflexivity.
  - subst st'. rewrite Hrun. reflexivity.
  - subst st'. rewrite Hrun. reflexivity.
  - intros user' updates.
    unfold put_classes_id, delete_classes_id. rewrite Hgone.
    split; reflexivity.
Qed.

Lemma delete_classes_id_removes_witness :
  snd (delete_classes_id two_classes lecturer_B "11")
  = json 200 (JObj [("success", JBool true);
                    ("message", JStr "Class deleted successfully")])
  /\ Pg.eq Classes.id (JStr "11")
       (tbl_classes (fst (delete_classes_id two_classes lecturer_B "11"))) = []
  /\ In class_CS101
       (tbl_classes (fst (delete_classes_id two_classes lecturer_B "11"))).
Proof.
  destruct (delete_classes_id_removes two_classes lecturer_B "11" class_MA201
              eq_refl (or_intror eq_refl)) as (Hresp & Hgone & Hrest & _).
  - intros r [<- | [<- | [<- | []]]]; reflexivity.
  - split; [exact Hresp|]. split; [exact Hgone|].
    apply Hrest. split; [left; reflexivity|reflexivity].
Defined.

(** An update, whatever its outcome, adds and removes no class, leaves
    every class of another id as it is, and leaves the users and the
    reports alone. *)
Theorem put_classes_id_frame (st : store) (user : Req.user)
    (classId : string) (updates : gmap string jsval) :
  let st' := fst (put_classes_id st user classId updates) in
  tbl_users st' = tbl_users st
  /\ tbl_report st' = tbl_report st
  /\ length (tbl_classes st') = length (tbl_classes st)
  /\ (forall r, In r (tbl_classes st) ->
                Pg.pg_eq (Classes.id r) classId = false ->
                In r (tbl_classes st')).
Proof.
  unfold put_classes_id.
  destruct (Pg.single _) as [[existing|] [e|]]; cbn [error data];
    try solve [cbn [fst]; repeat split; auto].
  destruct (_ && _); [solve [cbn [fst]; repeat split; auto]|].
  unfold update_classes. destruct (decide _); cbn [fst];
    [|solve [repeat split; auto]].
  cbn [with_classes tbl_users tbl_report tbl_classes].
  split; [reflexivity|]. split; [reflexivity|].
  split; [apply length_map|].
  intros r Hin Hmiss. apply in_map_iff. exists r. simpl ToString.
  rewrite Hmiss. split; [reflexivity|exact Hin].
Qed.

Lemma put_classes_id_frame_witness :
  In class_MA201
    (tbl_classes (fst (put_classes_id two_classes lecturer_A "10" take_over))).
Proof.
  destruct (put_classes_id_frame two_classes lecturer_A "10" take_over)
    as (_ & _ & _ & Hkept).
  apply Hkept; [right; left; reflexivity|reflexivity].
Defined.

(** What [POST /classes] answers once its four required fields are
    truthy: 403 with the store untouched for a role other than
    "lecturer", "pl" and "prl"; and for those three 201 with one class
    appended, whose [created_by] is the caller's name whatever the body
    says, whose status is "active" unless the body gives a truthy one,
    and whose capacity is [parseInt] of a truthy capacity and [null]
    otherwise. *)
Theorem post_classes_creates (st : store) (user : Req.user)
    (req : gmap string jsval) :
  truthy (get req "class_name") = true ->
  truthy (get req "course_name") = true ->
  truthy (get req "course_code") = true ->
  truthy (get req "lecturer") = true ->
  (Req.role user <> JStr "lecturer" -> Req.role user <> JStr "pl" ->
   Req.role user <> JStr "prl" ->
   post_classes st user req
   = (st, json_error 403 "Not authorized to create class"))
  /\ (Req.role user = JStr "lecturer" \/ Req.role user = JStr "pl"
      \/ Req.role user = JStr "prl" ->
      exists c,
        post_classes st user req
        = (tick (with_classes st (tbl_classes st ++ [c])),
           json 201 (JObj [("success", JBool true);
                           ("class", Classes.to_json c)]))
        /\ Classes.id c = JNum (serial st)
        /\ Classes.class_name c = get req "class_name"
        /\ Classes.lecturer c = get req "lecturer"
        /\ Classes.created_by c = Pg.wire (Req.name user)
        /\ Classes.status c
           = (if truthy (get req "status") then get req "status"
              else JStr "active")
        /\ Classes.capacity c
           = (if truthy (get req "capacity")
              then Pg.wire (parseInt (get req "capacity")) else JNull)).
Proof.
  intros H1 H2 H3 H4. split.
  - intros Hl Hpl Hprl. unfold post_classes.
    rewrite H1, H2, H3, H4. cbn [negb orb existsb].
    rewrite (strict_eq_str_false _ _ Hl), (strict_eq_str_false _ _ Hpl),
      (strict_eq_str_false _ _ Hprl).
    reflexivity.
  - intros Hrole.
    assert (Hgate : existsb (strict_eq (Req.role user))
                      [JStr "lecturer"; JStr "pl"; JStr "prl"] = true).
    { destruct Hrole as [-> | [-> | ->]]; reflexivity. }
    unfold post_classes. rewrite H1, H2, H3, H4. cbn [negb orb].
    rewrite Hgate. cbn [negb]. unfold insert_classes.
    cbn [assoc String.eqb Ascii.eqb Bool.eqb error data ok].
    eexists. split; [reflexivity|].
    cbn [Classes.id Classes.class_name Classes.lecturer Classes.created_by
         Classes.status Classes.capacity].
    rewrite (wire_truthy _ H1), (wire_truthy _ H4).
    repeat split.
    + unfold js_or. destruct (truthy (get req "status")) eqn:Hs.
      * apply wire_truthy. exact Hs.
      * reflexivity.
    + destruct (truthy (get req "capacity")); reflexivity.
Qed.

Lemma post_classes_creates_witness :
  exists c,
    post_classes sample lecturer_B create_CS102
    = (tick (with_classes sample (tbl_classes sample ++ [c])),
       json 201 (JObj [("success", JBool true); ("class", Classes.to_json c)]))
    /\ Classes.created_by c = JStr "B"
    /\ Classes.status c = JStr "active"
    /\ Classes.capacity c = JNum 25.
Proof.
  destruct (proj2 (post_classes_creates sample lecturer_B create_CS102
                     eq_refl eq_refl eq_refl eq_refl) (or_introl eq_refl))
    as (c & Hrun & _ & _ & _ & Hby & Hstatus & Hcap).
  exists c. split; [exact Hrun|]. split; [exact Hby|].
  split; [exact Hstatus|exact Hcap].
Defined.

(** The class a caller has just created is theirs: found under its new
    key, it lets the caller named in [created_by] through the gate of
    the update and of the delete and refuses every other caller who is
    not "pl". *)
Theorem created_class_is_owned (st : store) (user : Req.user)
    (req : gmap string jsval) (n : string) :
  truthy (get req "class_name") = true ->
  truthy (get req "course_name") = true ->
  truthy (get req "course_code") = true ->
  truthy (get req "lecturer") = true ->
  Req.role user = JStr "lecturer" \/ Req.role user = JStr "pl"
  \/ Req.role user = JStr "prl" ->
  Req.name user = JStr n ->
  Pg.eq Classes.id (JNum (serial st)) (tbl_classes st) = [] ->
  let st' := fst (post_classes st user req) in
  let classId := ToString (JNum (serial st)) in
  forall user' updates,
    Req.role user' <> JStr "pl" ->
    (Req.name user' <> JStr n ->
     put_classes_id st' user' classId updates
     = (st', json_error 403 "Not authorized to edit this class")
     /\ delete_classes_id st' user' classId
        = (st', json_error 403 "Not authorized to delete this class"))
    /\ (Req.name user' = JStr n ->
        status (snd (put_classes_id st' user' classId updates)) <> 403
        /\ status (snd (delete_classes_id st' user' classId)) <> 403).
Proof.
  intros H1 H2 H3 H4 Hrole Hname Hfresh st' classId user' updates Hrole'.
  assert (Hgate : existsb (strict_eq (Req.role user))
                    [JStr "lecturer"; JStr "pl"; JStr "prl"] = true).
  { destruct Hrole as [-> | [-> | ->]]; reflexivity. }
  assert (Hrow : exists c,
             Pg.eq Classes.id (JStr classId) (tbl_classes st') = [c]
             /\ Classes.created_by c = JStr n).
  { subst st'. unfold post_classes. rewrite H1, H2, H3, H4. cbn [negb orb].
    rewrite Hgate. cbn [negb]. unfold insert_classes.
    cbn [assoc String.eqb Ascii.eqb Bool.eqb error data ok fst tick
         with_classes tbl_classes].
    eexists. split.
    - unfold Pg.eq in *. rewrite List.filter_app.
      subst classId. cbn [ToString] in *. rewrite Hfresh.
      cbn [List.filter app Classes.id Pg.pg_eq ToString].
      rewrite String.eqb_refl. reflexivity.
    - cbn [Classes.created_by]. rewrite Hname. reflexivity. }
  destruct Hrow as (c & Hrow & Hby). split.
  - intros Hother. apply (not_owner_refused st' user' classId updates c).
    + exact Hrow.
    + exact Hrole'.
    + rewrite Hby. exact Hother.
  - intros Hsame. apply (owner_or_pl_admitted st' user' classId updates c).
    + exact Hrow.
    + right. rewrite Hby, Hsame. simpl. apply String.eqb_refl.
Qed.

Lemma created_class_is_owned_witness :
  put_classes_id (fst (post_classes sample lecturer_B create_CS102))
    lecturer_A "200" resize
  = (fst (post_classes sample lecturer_B create_CS102),
     json_error 403 "Not authorized to edit this class").
Proof.
  apply (created_class_is_owned sample lecturer_B create_CS102 "B"
           eq_refl eq_refl eq_refl eq_refl (or_introl eq_refl) eq_refl eq_refl
           lecturer_A resize).
  - discriminate.
  - discriminate.
Defined.

(** ** Reports: the gates of the routes by id *)

(** [PUT /reports/:id] answers 403 to every caller whose role is not
    "prl", before it looks for the report; it never answers 404, a report
    that is not found being answered 500 because [single()] reports an
    error that is thrown before the test of [data]; and it never changes
    the store. *)
Theorem put_reports_id_gate (st : store) (user : Req.user)
    (reportId : string) (req : gmap string jsval) :
  fst (put_reports_id st user reportId req) = st
  /\ status (snd (put_reports_id st user reportId req)) <> 404
  /\ (Req.role user <> JStr "prl" ->
      snd (put_reports_id st user reportId req)
      = json_error 403 "Not authorized to update reports")
  /\ (Req.role user = JStr "prl" ->
      (forall d, Pg.eq (R := Report.joined) Report.report_id (JStr reportId)
                   (select_report st) <> [d]) ->
      snd (put_reports_id st user reportId req)
      = json_error 500 "Failed to update report").
Proof.
  unfold put_reports_id.
  destruct (strict_eq (Req.role user) (JStr "prl")) eqn:Hrole; cbn [negb].
  - apply strict_eq_str in Hrole.
    destruct (Pg.eq _ _ _) as [|d [|d' l]] eqn:Hlook;
      cbn [Pg.single error data ok failed fst snd status json json_error];
      repeat split; try discriminate; try congruence.
  - cbn [fst snd status json_error json]. repeat split; try discriminate.
    intros Hprl. rewrite (proj2 (strict_eq_str _ _) Hprl) in Hrole.
    discriminate.
Qed.

Lemma put_reports_id_gate_witness :
  snd (put_reports_id sample lecturer_A "100" resize)
  = json_error 403 "Not authorized to update reports"
  /\ snd (put_reports_id sample prl_P "999" resize)
     = json_error 500 "Failed to update report".
Proof.
  split.
  - apply (put_reports_id_gate sample lecturer_A "100" resize). discriminate.
  - apply (put_reports_id_gate sample prl_P "999" resize).
    + reflexivity.
    + intros d. discriminate.
Defined.

(** Who may read a report by id: with the report found, a lecturer whose
    id is not its [submitted_by] is answered 403; a caller of another
    role, and the lecturer whose id is its [submitted_by], get the
    reshaped report with status 200. *)
Theorem get_reports_id_access (st : store) (user : Req.user)
    (reportId : string) (d : Report.joined) :
  Pg.eq (R := Report.joined) Report.report_id (JStr reportId) (select_report st)
  = [d] ->
  (Req.role user = JStr "lecturer" ->
   Report.submitted_by d <> Req.id user ->
   get_reports_id st user reportId
   = (st, json_error 403 "Not authorized to view this report"))
  /\ (Req.role user <> JStr "lecturer"
      \/ strict_eq (Report.submitted_by d) (Req.id user) = true ->
      get_reports_id st user reportId
      = (st, json 200 (transformedReport_get d))).
Proof.
  intros Hrow. split.
  - intros Hrole Hne. unfold get_reports_id. rewrite Hrow. simpl.
    rewrite Hrole, (strict_eq_differ _ _ Hne). reflexivity.
  - intros Hok. unfold get_reports_id. rewrite Hrow.
    cbn [Pg.single error data ok].
    destruct Hok as [Hrole | Hown].
    + rewrite (strict_eq_str_false _ _ Hrole). reflexivity.
    + rewrite Hown. rewrite Bool.andb_false_r. reflexivity.
Qed.

Lemma get_reports_id_access_witness :
  get_reports_id sample lecturer_A "101"
  = (sample, json_error 403 "Not authorized to view this report")
  /\ get_reports_id sample lecturer_B "101"
     = (sample, json 200 (transformedReport_get (join sample report_101))).
Proof.
  split.
  - apply (proj1 (get_reports_id_access sample lecturer_A "101"
                    (join sample report_101) eq_refl)).
    + reflexivity.
    + discriminate.
  - apply (proj2 (get_reports_id_access sample lecturer_B "101"
                    (join sample report_101) eq_refl)).
    right. reflexivity.
Defined.

Lemma pg_eq_refl (v : jsval) :
  v <> JNull -> v <> JUndefined -> Pg.pg_eq v (ToString v) = true.
Proof.
  intros Hn Hu. destruct v; simpl; try contradiction;
    first [apply String.eqb_refl|reflexivity].
Qed.

(** The two routes agree for a lecturer: a report that a lecturer, whose
    id is not [null], is given by [GET /reports/:id] is among the reports
    that [GET /reports] lists for that lecturer, in the same shape. *)
Theorem lecturer_fetch_is_listed (st : store) (user : Req.user)
    (reportId : string) :
  Req.role user = JStr "lecturer" ->
  Req.id user <> JNull ->
  Req.id user <> JUndefined ->
  status (snd (get_reports_id st user reportId)) = 200 ->
  exists items,
    snd (get_reports st user) = json 200 (JArr items)
    /\ In (body (snd (get_reports_id st user reportId))) items.
Proof.
  intros Hrole Hnull Hundef. unfold get_reports_id, get_reports.
  rewrite Hrole. cbn [strict_eq]. rewrite String.eqb_refl. cbn [andb].
  destruct (Pg.eq (R := Report.joined) Report.report_id (JStr reportId)
              (select_report st)) as [|d [|d' l]] eqn:Hlook;
    cbn [Pg.single error data ok failed snd json_error status];
    try discriminate.
  destruct (strict_eq (Report.submitted_by d) (Req.id user)) eqn:Hown;
    cbn [negb snd json_error json status body]; [|discriminate].
  intros _. apply strict_eq_true in Hown.
  eexists. split; [reflexivity|].
  change (transformedReport_get d) with (transformedData d).
  apply in_map. apply eq_In. split.
  - eapply Permutation_in.
    + symmetry. apply order_desc_Permutation.
    + assert (Hin : In d (Pg.eq (R := Report.joined) Report.report_id
                            (JStr reportId) (select_report st)))
        by (rewrite Hlook; left; reflexivity).
      apply eq_In in Hin. exact (proj1 Hin).
  - rewrite Hown. apply pg_eq_refl; assumption.
Qed.

Lemma lecturer_fetch_is_listed_witness :
  exists items,
    snd (get_reports sample lecturer_B) = json 200 (JArr items)
    /\ In (body (snd (get_reports_id sample lecturer_B "101"))) items.
Proof.
  apply (lecturer_fetch_is_listed sample lecturer_B "101").
  - reflexivity.
  - discriminate.
  - discriminate.
  - reflexivity.
Defined.

(** ** Reports: submission *)

Lemma join_after_insert (st : store) (rows : list Report.row) (r : Report.row) :
  join (tick (with_report st rows)) r = join st r.
Proof. reflexivity. Qed.

(** The run of [POST /reports] once the five required fields are truthy. *)
Lemma post_reports_inserts (st : store) (user : Req.user)
    (req : gmap string jsval) :
  truthy (get req "class_id") = true ->
  truthy (get req "week") = true ->
  truthy (get req "date") = true ->
  truthy (get req "topic") = true ->
  truthy (get req "actual_students") = true ->
  exists r,
    post_reports st user req
    = (tick (with_report st (tbl_report st ++ [r])),
       json 201 (JObj [("success", JBool true);
                       ("report", transformedReport_post (join st r))]))
    /\ Report.report_id r = JNum (serial st)
    /\ Report.submitted_by r = Pg.wire (Req.id user)
    /\ Report.class_id r = Pg.wire (parseInt (get req "class_id"))
    /\ Report.week r = Pg.wire (parseInt (get req "week"))
    /\ Report.actual_students r
       = Pg.wire (parseInt (get req "actual_students"))
    /\ Report.date r = get req "date"
    /\ Report.topic r = get req "topic".
Proof.
  intros H1 H2 H3 H4 H5. unfold post_reports.
  rewrite H1, H2, H3, H4, H5. cbn [negb orb]. unfold insert_report.
  cbn [assoc String.eqb Ascii.eqb Bool.eqb error data ok].
  eexists. split; [reflexivity|].
  cbn [Report.report_id Report.submitted_by Report.class_id Report.week
       Report.actual_students Report.date Report.topic].
  rewrite (wire_truthy _ H3), (wire_truthy _ H4). repeat split.
Qed.

(** A report whose five required fields are truthy, for a class and by a
    user that exist, is answered 201 and appends one row.  The row is
    the caller's whatever the body names as submitter; its class, week
    and number of students are [parseInt] of what was sent, [null] when
    that is no numeral; and the answer is that row reshaped. *)
Theorem post_reports_creates (st : store) (user : Req.user)
    (req : gmap string jsval) :
  truthy (get req "class_id") = true ->
  truthy (get req "week") = true ->
  truthy (get req "date") = true ->
  truthy (get req "topic") = true ->
  truthy (get req "actual_students") = true ->
  is_Some (references Classes.id (Pg.wire (parseInt (get req "class_id")))
             (tbl_classes st)) ->
  is_Some (references Users.user_id (Pg.wire (Req.id user)) (tbl_users st)) ->
  exists r,
    post_reports st user req
    = (tick (with_report st (tbl_report st ++ [r])),
       json 201 (JObj [("success", JBool true);
                       ("report", transformedReport_post (join st r))]))
    /\ Report.submitted_by r = Pg.wire (Req.id user)
    /\ Report.class_id r = Pg.wire (parseInt (get req "class_id"))
    /\ Report.week r = Pg.wire (parseInt (get req "week"))
    /\ Report.actual_students r
       = Pg.wire (parseInt (get req "actual_students"))
    /\ Report.date r = get req "date"
    /\ Report.topic r = get req "topic"
    /\ is_Some (Report.classes (join st r))
    /\ is_Some (Report.users (join st r)).
Proof.
  intros H1 H2 H3 H4 H5 Hclass Huser.
  destruct (post_reports_inserts st user req H1 H2 H3 H4 H5)
    as (r & Hrun & _ & Hby & Hcid & Hweek & Hact & Hdate & Htopic).
  exists r. repeat (split; [assumption|]).
  unfold join. cbn [Report.classes Report.users]. rewrite Hcid, Hby.
  split; apply fmap_is_Some; assumption.
Qed.

Lemma post_reports_creates_witness :
  exists r,
    post_reports sample lecturer_A submit_week4
    = (tick (with_report sample (tbl_report sample ++ [r])),
       json 201 (JObj [("success", JBool true);
                       ("report", transformedReport_post (join sample r))]))
    /\ Report.submitted_by r = JNum 1
    /\ Report.class_id r = JNum 10
    /\ Report.week r = JNull.
Proof.
  destruct (post_reports_creates sample lecturer_A submit_week4
              eq_refl eq_refl eq_refl eq_refl eq_refl)
    as (r & Hrun & Hby & Hcid & Hweek & _).
  - exists class_CS101. reflexivity.
  - exists user_A. reflexivity.
  - exists r. split; [exact Hrun|]. split; [exact Hby|].
    split; [exact Hcid|exact Hweek].
Defined.

(** A lecturer sees the report just submitted: after a [POST /reports]
    with the five required fields truthy, for a class that exists, by a
    lecturer who is a user and whose id is a number or a string, the
    reshaped report of the answer is among those that [GET /reports]
    lists for that lecturer. *)
Theorem submitted_report_is_listed (st : store) (user : Req.user)
    (req : gmap string jsval) :
  truthy (get req "class_id") = true ->
  truthy (get req "week") = true ->
  truthy (get req "date") = true ->
  truthy (get req "topic") = true ->
  truthy (get req "actual_students") = true ->
  is_Some (references Classes.id (Pg.wire (parseInt (get req "class_id")))
             (tbl_classes st)) ->
  is_Some (references Users.user_id (Pg.wire (Req.id user)) (tbl_users st)) ->
  Req.role user = JStr "lecturer" ->
  (exists z, Req.id user = JNum z) \/ (exists s, Req.id user = JStr s) ->
  let st' := fst (post_reports st user req) in
  exists items,
    snd (get_reports st' user) = json 200 (JArr items)
    /\ In (field (body (snd (post_reports st user req))) "report") items.
Proof.
  intros H1 H2 H3 H4 H5 _ _ Hrole Hid st'.
  destruct (post_reports_inserts st user req H1 H2 H3 H4 H5)
    as (r & Hrun & _ & Hby & _).
  subst st'. rewrite Hrun. cbn [fst snd body json field assoc String.eqb
                                Ascii.eqb Bool.eqb].
  unfold get_reports. rewrite Hrole. cbn [strict_eq].
  rewrite String.eqb_refl. cbn [error data ok snd json].
  eexists. split; [reflexivity|].
  change (transformedReport_post (join st r)) with (transformedData (join st r)).
  apply in_map. apply eq_In. split.
  - eapply Permutation_in; [symmetry; apply order_desc_Permutation|].
    unfold select_report. cbn [tbl_report with_report tick].
    rewrite <- (join_after_insert st (tbl_report st ++ [r]) r).
    apply in_map. apply in_or_app. right. left. reflexivity.
  - cbn [Report.base join Report.submitted_by]. rewrite Hby.
    destruct Hid as [[z ->] | [s ->]]; simpl; apply String.eqb_refl.
Qed.

Lemma submitted_report_is_listed_witness :
  exists items,
    snd (get_reports (fst (post_reports sample lecturer_A submit_week4))
           lecturer_A) = json 200 (JArr items)
    /\ In (field (body (snd (post_reports sample lecturer_A submit_week4)))
             "report") items.
Proof.
  apply (submitted_report_is_listed sample lecturer_A submit_week4);
    try reflexivity.
  - exists class_CS101. reflexivity.
  - exists user_A. reflexivity.
  - left. exists 1. reflexivity.
Defined.

(** ** Accounts: what the routes show of a user *)

Section SessionFacts.

Variable bcrypt_hash : string -> string.
Variable bcrypt_compare : string -> string -> bool.
Variable jwt_sign : jsval -> string.
Variable jwt_verify : string -> option Req.user.

(** From login to profile: when the login of a user succeeds, the token
    of the answer is the signature of the user's id, role, name and
    email; and if that token verifies to that payload, a request to
    [GET /profile] that carries it after "Bearer " is answered with the
    user's row less the password, the user being found by its key. *)
Theorem login_token_opens_profile (st : store) (req : gmap string jsval)
    (u : Users.row) :
  truthy (get req "email") = true ->
  truthy (get req "password") = true ->
  Pg.maybeSingle (Pg.eq Users.email (get req "email") (tbl_users st)) = ok u ->
  compare bcrypt_compare (get req "password") (Users.password u) = Some true ->
  Pg.eq Users.user_id (Users.user_id u) (tbl_users st) = [u] ->
  let token := jwt_sign (payload_of u) in
  jwt_verify token = Some (claims_of u) ->
  has_space token = false ->
  token <> "" ->
  field (body (snd (post_login bcrypt_compare jwt_sign st req))) "token"
  = JStr token
  /\ guarded jwt_verify (Some ("Bearer" +:+ String " " token)) st
       (get_profile st)
     = (st, json 200 (profile_json u))
  /\ field (profile_json u) "password" = JUndefined.
Proof.
  intros He Hp Hfound Hcmp Hkey token Hverify Hspace Hne.
  split; [|split; [|reflexivity]].
  - unfold post_login. rewrite He, Hp. cbn [negb orb]. rewrite Hfound.
    cbn [error data ok]. rewrite Hcmp. reflexivity.
  - unfold guarded, authenticateToken. cbn [truthy].
    rewrite append_not_empty. cbn [negb].
    rewrite (split_space_app "Bearer" token eq_refl).
    rewrite (split_space_no_space _ Hspace). cbn [lookup list_lookup truthy].
    destruct (String.eqb_spec token "") as [Hempty|_]; [contradiction|].
    cbn [negb]. rewrite Hverify.
    unfold get_profile. cbn [claims_of Req.id]. rewrite Hkey. reflexivity.
Qed.

(** [GET /lecturers] lists, without a token, the users whose role is
    "lecturer" and no other, each as its id, name, email and role.  A
    user registered with that role in any mix of cases is listed right
    after the registration. *)
Theorem registered_lecturer_is_listed (st : store) (req : gmap string jsval)
    (pw : string) :
  passes_checks req = true ->
  get req "password" = JStr pw ->
  toLowerCase (get req "role") = Some "lecturer" ->
  Pg.eq Users.email (get req "email") (tbl_users st) = [] ->
  let st' := fst (post_register bcrypt_hash st req) in
  exists rows,
    get_lecturers st' = (st', json 200 (JArr (map lecturer_json rows)))
    /\ (forall u, In u rows <->
                  In u (tbl_users st')
                  /\ Pg.pg_eq (Users.role u) "lecturer" = true)
    /\ In (registered st req (bcrypt_hash pw) "lecturer") rows
    /\ (forall u, keys (lecturer_json u) = ["user_id"; "name"; "email"; "role"]).
Proof.
  intros Hchecks Hpw Hrole Hfree st'.
  exists (Pg.eq Users.role (JStr "lecturer") (tbl_users st')).
  split; [reflexivity|]. split; [|split; [|reflexivity]].
  - intros u. apply eq_In.
  - apply eq_In. split; [|reflexivity].
    subst st'.
    rewrite (post_register_inserts bcrypt_hash st req pw "lecturer"
               Hchecks Hpw Hrole Hfree).
    cbn [fst tick with_users tbl_users]. apply in_or_app. right. left.
    reflexivity.
Qed.

End SessionFacts.

Lemma login_token_opens_profile_witness :
  guarded toy_verify (Some "Bearer tokenA") sample (get_profile sample)
  = (sample, json 200 (profile_json user_A)).
Proof.
  apply (login_token_opens_profile toy_compare sign_A toy_verify sample
           login_A user_A);
    first [reflexivity|discriminate].
Defined.

Lemma registered_lecturer_is_listed_witness :
  exists rows,
    get_lecturers (fst (post_register toy_hash sample register_C))
    = (fst (post_register toy_hash sample register_C),
       json 200 (JArr (map lecturer_json rows)))
    /\ In (registered sample register_C (toy_hash "s3cret") "lecturer") rows.
Proof.
  destruct (registered_lecturer_is_listed toy_hash sample register_C "s3cret"
              eq_refl eq_refl eq_refl eq_refl) as (rows & Hrun & _ & Hin & _).
  exists rows. split; [exact Hrun|exact Hin].
Defined.

(** ** Courses *)

Lemma filter_none_keeps_all {A} (p : A -> bool) (l : list A) :
  List.filter p l = [] -> List.filter (fun x => negb (p x)) l = l.
Proof.
  induction l as [|x l IH]; simpl; [reflexivity|].
  destruct (p x); simpl; [discriminate|].
  intros H. rewrite (IH H). reflexivity.
Qed.

Lemma map_none_hit {A} (p : A -> bool) (f : A -> A) (l : list A) :
  List.filter p l = [] -> map (fun x => if p x then f x else x) l = l.
Proof.
  induction l as [|x l IH]; simpl; [reflexivity|].
  destruct (p x); simpl; [discriminate|].
  intros H. rewrite (IH H). reflexivity.
Qed.

(** [DELETE /courses/:id] answers 200 "Course deleted successfully"
    whether or not a course has the id.  When none has it the table is
    as before and the answer carries no course; in every case no course
    has the id afterwards, and [GET /courses/:id] for it is answered 500,
    not 404. *)
Theorem delete_courses_id_always_succeeds (db : catalogue) (id : string) :
  let db' := fst (delete_courses_id db id) in
  let deleted := Pg.eq Courses.course_id (JStr id) (tbl_courses db) in
  snd (delete_courses_id db id)
  = json 200 (JObj [("message", JStr "Course deleted successfully");
                    ("course", first Courses.to_json deleted)])
  /\ Pg.eq Courses.course_id (JStr id) (tbl_courses db') = []
  /\ (deleted = [] ->
      db' = db
      /\ field (body (snd (delete_courses_id db id))) "course" = JUndefined)
  /\ get_courses_id db' id = (db', json_error 500 "Failed to fetch course").
Proof.
  intros db' deleted.
  assert (Hgone : Pg.eq Courses.course_id (JStr id) (tbl_courses db') = []).
  { unfold Pg.eq. simpl ToString.
    apply (filter_negb_then_filter
             (fun c => Pg.pg_eq (Courses.course_id c) id)). }
  split; [reflexivity|]. split; [exact Hgone|]. split.
  - intros Hnone. split.
    + subst db'. unfold delete_courses_id, delete_courses. cbn [fst].
      simpl ToString.
      rewrite (filter_none_keeps_all
                 (fun c => Pg.pg_eq (Courses.course_id c) id) _ Hnone).
      destruct db; reflexivity.
    + unfold delete_courses_id, delete_courses.
      cbn [snd body json error data ok].
      fold deleted. rewrite Hnone. reflexivity.
  - unfold get_courses_id. rewrite Hgone. reflexivity.
Qed.

(** [PUT /courses/:id] reads three fields of the body and no other: two
    bodies that agree on [course_code], [course_name] and [faculty] get
    the same answer and leave the same table.  It never changes a key,
    adds or removes a row; with a course of that id and one of the three
    fields in the body, a field that the body lacks keeps its stored
    value; and when no course has the id the table is as before and the
    answer is 200 with no body, not 404. *)
Theorem put_courses_id_writes_three (db : catalogue) (id : string)
    (req : gmap string jsval) :
  let db' := fst (put_courses_id db id req) in
  (forall req',
     get req' "course_code" = get req "course_code" ->
     get req' "course_name" = get req "course_name" ->
     get req' "faculty" = get req "faculty" ->
     put_courses_id db id req' = put_courses_id db id req)
  /\ map Courses.course_id (tbl_courses db')
     = map Courses.course_id (tbl_courses db)
  /\ (forall c,
        Pg.eq Courses.course_id (JStr id) (tbl_courses db) = [c] ->
        is_Some (req !! "course_code") \/ is_Some (req !! "course_name")
        \/ is_Some (req !! "faculty") ->
        exists c',
          snd (put_courses_id db id req) = json 200 (Courses.to_json c')
          /\ Pg.eq Courses.course_id (JStr id) (tbl_courses db') = [c']
          /\ (req !! "course_code" = None ->
              Courses.course_code c' = Courses.course_code c)
          /\ (req !! "course_name" = None ->
              Courses.course_name c' = Courses.course_name c)
          /\ (req !! "faculty" = None ->
              Courses.faculty c' = Courses.faculty c)
          /\ (forall v, req !! "course_name" = Some v -> v <> JUndefined ->
              Courses.course_name c' = Pg.wire v))
  /\ (Pg.eq Courses.course_id (JStr id) (tbl_courses db) = [] ->
      put_courses_id db id req = (db, json 200 JUndefined)).
Proof.
  intros db'. split; [|split; [|split]].
  - intros req' H1 H2 H3. unfold put_courses_id, course_fields.
    rewrite H1, H2, H3. reflexivity.
  - subst db'. unfold put_courses_id, update_courses.
    cbn [fst tbl_courses error data ok]. rewrite map_map. apply map_ext.
    intros c. destruct (Pg.pg_eq _ _); reflexivity.
  - intros c Hrow _. exists (updated_course (course_fields req) c).
    split; [|split].
    + unfold put_courses_id, update_courses. cbn [snd error data ok].
      rewrite Hrow. reflexivity.
    + subst db'. unfold put_courses_id, update_courses.
      cbn [fst tbl_courses error data ok]. unfold Pg.eq in *.
      simpl ToString in *.
      clear -Hrow. revert Hrow.
      generalize (tbl_courses db) as l. intros l.
      change (fun r => Pg.pg_eq (Courses.course_id r) id)
        with (fun r : Courses.row => Pg.pg_eq (Courses.course_id r) id).
      revert c. induction l as [|x l IH]; intros c Hrow; [discriminate|].
      cbn [map List.filter] in *.
      destruct (Pg.pg_eq (Courses.course_id x) id) eqn:Hhit.
      * cbn [updated_course Courses.course_id]. rewrite Hhit.
        injection Hrow as -> Hrest. f_equal.
        rewrite (map_none_hit _ _ _ Hrest). exact Hrest.
      * rewrite Hhit. apply IH. exact Hrow.
    + unfold get, course_fields, updated_course, updated_column.
      cbn [assoc String.eqb Ascii.eqb Bool.eqb Courses.course_code
           Courses.course_name Courses.faculty].
      unfold get.
      split; [intros ->; reflexivity|].
      split; [intros ->; reflexivity|].
      split; [intros ->; reflexivity|].
      intros v -> Hdef. simpl default.
      destruct v; first [contradiction|reflexivity].
  - intros Hnone. unfold put_courses_id, update_courses.
    rewrite Hnone. cbn [map error data ok first].
    unfold Pg.eq in Hnone. simpl ToString in *.
    rewrite (map_none_hit _ _ _ Hnone). destruct db; reflexivity.
Qed.

Lemma delete_courses_id_always_succeeds_witness :
  fst (delete_courses_id sample_courses "42") = sample_courses
  /\ snd (delete_courses_id sample_courses "42")
     = json 200 (JObj [("message", JStr "Course deleted successfully");
                       ("course", JUndefined)]).
Proof.
  destruct (delete_courses_id_always_succeeds sample_courses "42")
    as (Hresp & _ & Hnone & _).
  split; [apply Hnone; reflexivity|exact Hresp].
Defined.

Lemma put_courses_id_writes_three_witness :
  exists c',
    snd (put_courses_id sample_courses "7" rename_course)
    = json 200 (Courses.to_json c')
    /\ Courses.course_code c' = JStr "CS"
    /\ Courses.course_name c' = JStr "Programming I"
    /\ Courses.course_id c' = JNum 7.
Proof.
  destruct (put_courses_id_writes_three sample_courses "7" rename_course)
    as (_ & _ & Hrow & _).
  destruct (Hrow course_CS eq_refl)
    as (c' & Hresp & Hfound & Hcode & _ & _ & Hname).
  { right. left. exists (JStr "Programming I"). reflexivity. }
  exists c'. split; [exact Hresp|]. split; [apply Hcode; reflexivity|].
  split; [apply (Hname (JStr "Programming I")); [reflexivity|discriminate]|].
  assert (Hin : In c' (Pg.eq Courses.course_id (JStr "7")
                         (tbl_courses
                            (fst (put_courses_id sample_courses "7"
                                    rename_course)))))
    by (rewrite Hfound; left; reflexivity).
  cbn in Hin. destruct Hin as [<- | []]. reflexivity.
Defined.

(** A course created with its three fields truthy can be read back: the
    answer to [POST /courses] is 201 with the new row, which holds the
    three fields as sent under a key that no course had, and
    [GET /courses/:id] for that key returns the same row. *)
Theorem post_then_get_course (db : catalogue) (req : gmap string jsval) :
  truthy (get req "course_code") = true ->
  truthy (get req "course_name") = true ->
  truthy (get req "faculty") = true ->
  Pg.eq Courses.course_id (JNum (course_serial db)) (tbl_courses db) = [] ->
  let db' := fst (post_courses db req) in
  exists c,
    snd (post_courses db req) = json 201 (Courses.to_json c)
    /\ tbl_courses db' = (tbl_courses db ++ [c])%list
    /\ Courses.course_id c = JNum (course_serial db)
    /\ Courses.course_code c = get req "course_code"
    /\ Courses.course_name c = get req "course_name"
    /\ Courses.faculty c = get req "faculty"
    /\ get_courses_id db' (ToString (Courses.course_id c))
       = (db', json 200 (Courses.to_json c)).
Proof.
  intros H1 H2 H3 Hfresh db'.
  eexists. split; [reflexivity|]. split; [reflexivity|].
  cbn [Courses.course_code Courses.course_name Courses.faculty
       Courses.course_id course_fields assoc String.eqb Ascii.eqb Bool.eqb].
  rewrite (wire_truthy _ H1), (wire_truthy _ H2), (wire_truthy _ H3).
  split; [reflexivity|].
  split; [reflexivity|]. split; [reflexivity|]. split; [reflexivity|].
  unfold get_courses_id. subst db'.
  unfold post_courses, insert_courses.
  cbn [fst error data ok tbl_courses course_fields assoc String.eqb Ascii.eqb
       Bool.eqb].
  unfold Pg.eq in *. rewrite List.filter_app. cbn [ToString] in *.
  rewrite Hfresh.
  cbn [List.filter app Courses.course_id Pg.pg_eq ToString].
  rewrite String.eqb_refl.
  rewrite (wire_truthy _ H1), (wire_truthy _ H2), (wire_truthy _ H3).
  reflexivity.
Qed.

Lemma post_then_get_course_witness :
  exists c,
    snd (post_courses sample_courses create_course)
    = json 201 (Courses.to_json c)
    /\ get_courses_id (fst (post_courses sample_courses create_course)) "9"
       = (fst (post_courses sample_courses create_course),
          json 200 (Courses.to_json c)).
Proof.
  destruct (post_then_get_course sample_courses create_course
              eq_refl eq_refl eq_refl eq_refl)
    as (c & Hresp & _ & Hid & _ & _ & _ & Hget).
  exists c. split; [exact Hresp|].
  rewrite Hid in Hget. exact Hget.
Defined.

(** ** Numbers through [parseInt] *)

Lemma pretty_N_char_digit (x : N) :
  (x < 10)%N ->
  is_digit (pretty_N_char x) = true
  /\ digit_val (pretty_N_char x) = Some (Z.of_N x).
Proof.
  intros Hx.
  assert (x = 0 \/ x = 1 \/ x = 2 \/ x = 3 \/ x = 4 \/ x = 5 \/ x = 6
          \/ x = 7 \/ x = 8 \/ x = 9)%N as H by lia.
  repeat (destruct H as [-> | H]; [split; reflexivity|]).
  subst x. split; reflexivity.
Qed.

Lemma pretty_N_go_all_digits (x : N) (s : string) :
  all_digits s = true -> all_digits (pretty_N_go x s) = true.
Proof.
  revert s. induction (N.lt_wf_0 x) as [x _ IH]. intros s Hs.
  destruct (N.eq_dec x 0%N) as [-> | Hx]; [exact Hs|].
  rewrite pretty_N_go_step by lia. apply IH.
  - apply N.div_lt; lia.
  - cbn [all_digits]. rewrite Hs.
    rewrite (proj1 (pretty_N_char_digit (x `mod` 10)%N
                      (N.mod_lt x 10%N ltac:(discriminate)))).
    reflexivity.
Qed.

Lemma pretty_N_go_not_empty (x : N) (s : string) :
  s <> "" -> pretty_N_go x s <> "".
Proof.
  revert s. induction (N.lt_wf_0 x) as [x _ IH]. intros s Hs.
  destruct (N.eq_dec x 0%N) as [-> | Hx]; [exact Hs|].
  rewrite pretty_N_go_step by lia. apply IH.
  - apply N.div_lt; lia.
  - discriminate.
Qed.

(** Reading back the digits that [pretty] wrote. *)
Lemma digits_pretty_N_go (x : N) (s : string) :
  (0 < x)%N ->
  digits 10 None (pretty_N_go x s) = digits 10 (Some (Z.of_N x)) s.
Proof.
  revert s. induction (N.lt_wf_0 x) as [x _ IH]. intros s Hx.
  rewrite pretty_N_go_step by exact Hx.
  pose proof (pretty_N_char_digit (x `mod` 10)%N
                (N.mod_lt x 10%N ltac:(discriminate))) as [_ Hval].
  destruct (N.eq_dec (x `div` 10)%N 0%N) as [Hq | Hq].
  - rewrite Hq, pretty_N_go_0. cbn [digits]. rewrite Hval.
    assert (Hlt : (Z.of_N (x `mod` 10) <? 10) = true).
    { apply Z.ltb_lt. pose proof (N.mod_lt x 10%N ltac:(discriminate)). lia. }
    rewrite Hlt. cbn [default]. f_equal. f_equal.
    apply N.div_small_iff in Hq; [|discriminate].
    rewrite N.mod_small by exact Hq. lia.
  - rewrite IH; [|apply N.div_lt; lia|apply N.neq_0_lt_0; exact Hq].
    cbn [digits]. rewrite Hval.
    assert (Hlt : (Z.of_N (x `mod` 10) <? 10) = true).
    { apply Z.ltb_lt. pose proof (N.mod_lt x 10%N ltac:(discriminate)). lia. }
    rewrite Hlt. cbn [default]. f_equal. f_equal.
    pose proof (N.div_mod x 10%N ltac:(discriminate)) as Hdm.
    apply (f_equal Z.of_N) in Hdm.
    rewrite N2Z.inj_add, N2Z.inj_mul in Hdm. simpl (Z.of_N 10) in Hdm.
    unfold id. rewrite Hdm. ring.
Qed.

Ltac ascii_cases c H :=
  let b0 := fresh "b" in let b1 := fresh "b" in let b2 := fresh "b" in
  let b3 := fresh "b" in let b4 := fresh "b" in let b5 := fresh "b" in
  let b6 := fresh "b" in let b7 := fresh "b" in
  destruct c as [b0 b1 b2 b3 b4 b5 b6 b7];
  destruct b0, b1, b2, b3, b4, b5, b6, b7;
  try (cbn in H; discriminate H).

(** [parseInt] of a string of digits, with or without a minus sign,
    reads all of it in radix 10. *)
Lemma parseInt_digits (s : string) :
  all_digits s = true -> s <> "" ->
  parseInt (JStr s)
  = match digits 10 None s with
    | None => JNaN
    | Some n => JNum n
    end
  /\ parseInt (JStr (String "-" s))
     = match digits 10 None s with
       | None => JNaN
       | Some n => JNum (- n)
       end.
Proof.
  intros H Hne. destruct s as [|c t]; [contradiction|].
  ascii_cases c H; unfold parseInt; cbn [ToString skip_space];
    try (split; reflexivity).
  destruct t as [|c' t']; [split; reflexivity|].
  ascii_cases c' H; split; reflexivity.
Qed.

(** A safe integer goes through [parseInt] unchanged: its text is its
    decimal writing, which [parseInt] reads back. *)
Lemma parseInt_integer (z : Z) : safe_integer z -> parseInt (JNum z) = JNum z.
Proof.
  intros _. destruct z as [|p|p].
  - reflexivity.
  - change (parseInt (JNum (Z.pos p)))
      with (parseInt (JStr (pretty_N_go (N.pos p) ""))).
    rewrite (proj1 (parseInt_digits _
                      (pretty_N_go_all_digits (N.pos p) "" eq_refl)
                      ltac:(rewrite pretty_N_go_step by reflexivity;
                            apply pretty_N_go_not_empty; discriminate))).
    rewrite digits_pretty_N_go by reflexivity. reflexivity.
  - change (parseInt (JNum (Z.neg p)))
      with (parseInt (JStr (String "-" (pretty_N_go (N.pos p) "")))).
    rewrite (proj2 (parseInt_digits _
                      (pretty_N_go_all_digits (N.pos p) "" eq_refl)
                      ltac:(rewrite pretty_N_go_step by reflexivity;
                            apply pretty_N_go_not_empty; discriminate))).
    rewrite digits_pretty_N_go by reflexivity. reflexivity.
Qed.

(** The one change that [PUT /classes/:id] makes to its body does nothing
    to a capacity that is a safe integer (or falsy, or absent): the patch
    handed to the store is then the body itself. *)
Theorem coerce_capacity_integer (updates : gmap string jsval) :
  (exists z, updates !! "capacity" = Some (JNum z) /\ safe_integer z)
  \/ truthy (get updates "capacity") = false ->
  coerce_capacity updates = updates.
Proof.
  intros [[z [Hz Hsafe]] | Hfalsy]; unfold coerce_capacity.
  - assert (Hget : get updates "capacity" = JNum z)
      by (unfold get; rewrite Hz; reflexivity).
    rewrite Hget. destruct (truthy (JNum z)); [|reflexivity].
    rewrite (parseInt_integer z Hsafe). apply insert_id. exact Hz.
  - rewrite Hfalsy. reflexivity.
Qed.

Lemma coerce_capacity_integer_witness :
  coerce_capacity resize_to_60 = resize_to_60.
Proof.
  apply (coerce_capacity_integer resize_to_60). left. exists 60.
  split; [reflexivity|]. unfold safe_integer. simpl. lia.
Defined.

(** A report whose class, week and number of students are sent as
    non-zero safe integers is stored with those very numbers. *)
Theorem post_reports_keeps_numbers (st : store) (user : Req.user)
    (req : gmap string jsval) (class_id week students : Z) :
  get req "class_id" = JNum class_id -> class_id <> 0 ->
  get req "week" = JNum week -> week <> 0 ->
  get req "actual_students" = JNum students -> students <> 0 ->
  safe_integer class_id -> safe_integer week -> safe_integer students ->
  truthy (get req "date") = true ->
  truthy (get req "topic") = true ->
  is_Some (references Classes.id (JNum class_id) (tbl_classes st)) ->
  is_Some (references Users.user_id (Pg.wire (Req.id user)) (tbl_users st)) ->
  exists r,
    tbl_report (fst (post_reports st user req)) = (tbl_report st ++ [r])%list
    /\ status (snd (post_reports st user req)) = 201
    /\ Report.class_id r = JNum class_id
    /\ Report.week r = JNum week
    /\ Report.actual_students r = JNum students.
Proof.
  intros Hc Hc0 Hw Hw0 Ha Ha0 Sc Sw Sa Hd Ht _ _.
  assert (Hnz : forall z, z <> 0 -> truthy (JNum z) = true).
  { intros z Hz. simpl. apply Bool.negb_true_iff. apply Z.eqb_neq. exact Hz. }
  destruct (post_reports_inserts st user req) as
    (r & Hrun & _ & _ & Hcid & Hweek & Hact & _);
    try assumption;
    try (rewrite ?Hc, ?Hw, ?Ha; apply Hnz; assumption).
  exists r. rewrite Hrun. split; [reflexivity|]. split; [reflexivity|].
  rewrite Hcid, Hweek, Hact, Hc, Hw, Ha.
  rewrite (parseInt_integer _ Sc), (parseInt_integer _ Sw),
    (parseInt_integer _ Sa).
  repeat split.
Qed.

Lemma post_reports_keeps_numbers_witness :
  exists r,
    tbl_report (fst (post_reports sample lecturer_A submit_week5))
    = (tbl_report sample ++ [r])%list
    /\ Report.class_id r = JNum 10
    /\ Report.week r = JNum 5
    /\ Report.actual_students r = JNum 33.
Proof.
  destruct (post_reports_keeps_numbers sample lecturer_A submit_week5 10 5 33)
    as (r & Htbl & _ & Hc & Hw & Ha);
    try reflexivity; try discriminate;
    try (unfold safe_integer; simpl; lia).
  - exists class_CS101. reflexivity.
  - exists user_A. reflexivity.
  - exists r. repeat (split; [assumption|]). assumption.
Defined.

(** ** Reports: nothing of a lecturer's is hidden *)

(** The list of a lecturer is complete: every stored report whose
    [submitted_by] the store equates with the lecturer's id is in the
    answer of [GET /reports], reshaped. *)
Theorem get_reports_lists_all_own (st : store) (user : Req.user)
    (r : Report.row) :
  Req.role user = JStr "lecturer" ->
  In r (tbl_report st) ->
  Pg.pg_eq (Report.submitted_by r) (ToString (Req.id user)) = true ->
  exists items,
    snd (get_reports st user) = json 200 (JArr items)
    /\ In (transformedData (join st r)) items.
Proof.
  intros Hrole Hin Hown. unfold get_reports. rewrite Hrole.
  cbn [strict_eq]. rewrite String.eqb_refl. cbn [error data ok snd].
  eexists. split; [reflexivity|].
  apply in_map. apply eq_In. split.
  - eapply Permutation_in; [symmetry; apply order_desc_Permutation|].
    unfold select_report. apply in_map. exact Hin.
  - exact Hown.
Qed.

Lemma get_reports_lists_all_own_witness :
  exists items,
    snd (get_reports sample lecturer_B) = json 200 (JArr items)
    /\ In (transformedData (join sample report_101)) items.
Proof.
  apply (get_reports_lists_all_own sample lecturer_B report_101).
  - reflexivity.
  - right. left. reflexivity.
  - reflexivity.
Defined.

(** ** The routes that create *)

(** The three routes that insert change the store only when they answer
    201: a registration, a class or a report that is answered anything
    else leaves every table as it was. *)
Theorem creating_routes_write_only_on_201 :
  (forall bcrypt_hash st req,
     status (snd (post_register bcrypt_hash st req)) <> 201 ->
     fst (post_register bcrypt_hash st req) = st)
  /\ (forall st user req,
        status (snd (post_classes st user req)) <> 201 ->
        fst (post_classes st user req) = st)
  /\ (forall st user req,
        status (snd (post_reports st user req)) <> 201 ->
        fst (post_reports st user req) = st).
Proof.
  split; [|split].
  - intros bcrypt_hash st req. unfold post_register.
    destruct (_ || _); [reflexivity|].
    destruct (toLowerCase _); [|reflexivity].
    destruct (negb _); [reflexivity|].
    destruct (data _); [reflexivity|].
    destruct (hash _ _); [|reflexivity].
    cbn [insert_users error data ok snd status json]. congruence.
  - intros st user req. unfold post_classes.
    destruct (_ || _); [reflexivity|].
    destruct (negb _); [reflexivity|].
    cbn [insert_classes error data ok snd status json]. congruence.
  - intros st user req. unfold post_reports.
    destruct (_ || _); [reflexivity|].
    cbn [insert_report error data ok snd status json]. congruence.
Qed.

Lemma creating_routes_write_only_on_201_witness :
  fst (post_classes sample lecturer_A resize) = sample.
Proof.
  destruct creating_routes_write_only_on_201 as (_ & Hclasses & _).
  apply Hclasses. discriminate.
Defined.
